(** * core-js-101, objects tasks: [src/05-objects-tasks.js]

    [Rectangle], [getJSON] and [fromJSON], and the CSS selector builder:
    [class CssClass] and the facade [cssSelectorBuilder].

    The selector builder is embedded twice: as functions on the fields of
    an object (modules [CssClass] and [cssSelectorBuilder]), and as
    computations in a state and exception monad over a store of objects
    (module [Store]), where [new CssClass(...)] allocates.  The two agree:
    [StoreFacts.method_agrees] and [StoreFacts.combine_agrees].

    [getJSON] and [fromJSON] are embedded over a model of the built-ins
    they call (module [Json]).

    The definitions come first, the facts after them. *)

From Stdlib Require Import String Ascii List Bool Arith Lia ZArith DecimalString.
Import ListNotations.
Local Open Scope string_scope.

(** ** JavaScript strings *)

Module JsString.

(** [hay.includes(needle)]: [needle] occurs in [hay] at some position. *)
Fixpoint includes (hay needle : string) : bool :=
  String.prefix needle hay ||
  match hay with
  | EmptyString => false
  | String _ rest => includes rest needle
  end.

(** Truthiness of a string in a condition: every string but the empty one. *)
Definition truthy (s : string) : bool :=
  match s with
  | EmptyString => false
  | String _ _ => true
  end.

(** A test on texts that, once it holds of a text, holds of every text that
    contains it. *)
Definition monotone (test : string -> bool) : Prop :=
  forall a b, test a = true ->
    test (a ++ b) = true /\ test (b ++ a) = true.

(** A text is free of the character [c]. *)
Definition free_of (c : string) (t : string) : Prop := includes t c = false.

(** The double quote, as a one-character string. *)
Definition dquote : string := String "034" "".

End JsString.

(** ** Completions: a call returns normally or throws *)

Inductive exception : Type :=
| Error (message : string)   (* [new Error(message)] *)
| TypeError
| SyntaxError.

Inductive completion (A : Type) : Type :=
| Normal (a : A)
| Throw (e : exception).
Arguments Normal {A} a.
Arguments Throw {A} e.

Definition cbind {A B} (c : completion A) (k : A -> completion B) : completion B :=
  match c with
  | Normal a => k a
  | Throw e => Throw e
  end.

(** ** class CssClass, as a value *)

Module CssClass.
Import JsString.

(** The fields [value] and [elem] of an instance.  The fields [err1] and
    [err2] are set by the constructor to the same two literals in every
    instance and are assigned nowhere else: they are the constants below. *)
Record t : Type := new { value : string; elem : bool }.

Definition err1 : string :=
  "Element, id and pseudo-element should not occur more then one time inside the selector".
Definition err2 : string :=
  "Selector parts should be arranged in the following order: element, id, class, attribute, pseudo-class, pseudo-element".

(** The two error kinds of the specification are the two messages. *)
Definition DuplicateSegmentError : exception := Error err1.
Definition SegmentOrderError : exception := Error err2.

Definition element (this : t) (val : string) : completion t :=
  if elem this then Throw (Error err1)
  else if truthy (value this) then Throw (Error err2)
  else Normal (new (value this ++ val) (elem this)).

Definition id (this : t) (val : string) : completion t :=
  if includes (value this) "#" then Throw (Error err1)
  else if includes (value this) "." || includes (value this) "["
          || includes (value this) ":" || includes (value this) "::"
       then Throw (Error err2)
  else Normal (new (value this ++ "#" ++ val) (elem this)).

Definition class (this : t) (val : string) : completion t :=
  if includes (value this) "[" || includes (value this) ":"
     || includes (value this) "::"
  then Throw (Error err2)
  else Normal (new (value this ++ "." ++ val) (elem this)).

Definition attr (this : t) (val : string) : completion t :=
  if includes (value this) ":" || includes (value this) "::"
  then Throw (Error err2)
  else Normal (new (value this ++ "[" ++ val ++ "]") (elem this)).

Definition pseudoClass (this : t) (val : string) : completion t :=
  if includes (value this) "::" then Throw (Error err2)
  else Normal (new (value this ++ ":" ++ val) (elem this)).

Definition pseudoElement (this : t) (val : string) : completion t :=
  if includes (value this) "::" then Throw (Error err1)
  else Normal (new (value this ++ "::" ++ val) (elem this)).

Definition stringify (this : t) : string := value this.

End CssClass.

(** ** const cssSelectorBuilder *)

Module cssSelectorBuilder.
Import CssClass.

Definition element (value : string) : CssClass.t := new value true.
Definition id (value : string) : CssClass.t := new ("#" ++ value) false.
Definition class (value : string) : CssClass.t := new ("." ++ value) false.
Definition attr (value : string) : CssClass.t := new ("[" ++ value ++ "]") false.
Definition pseudoClass (value : string) : CssClass.t := new (":" ++ value) false.
Definition pseudoElement (value : string) : CssClass.t := new ("::" ++ value) false.
Definition combine (selector1 : CssClass.t) (combine : string) (selector2 : CssClass.t)
  : CssClass.t :=
  new (stringify selector1 ++ " " ++ combine ++ " " ++ stringify selector2) false.

(** The four combinators of the facade's documentation. *)
Definition combinators : list string := [" "; "+"; "~"; ">"].

End cssSelectorBuilder.

(** ** Client programs of the builder

    A selector is obtained from the facade by one starter, then method
    calls chained on the result, and [combine] of two such results.  A
    [Script.t] is the syntax of such an expression and [Script.run] evaluates
    it with the operations above, in JavaScript's left-to-right order. *)

Module Script.

Inductive part : Type :=
| Element | Id | Class | Attr | PseudoClass | PseudoElement.

Definition start (p : part) : string -> CssClass.t :=
  match p with
  | Element => cssSelectorBuilder.element
  | Id => cssSelectorBuilder.id
  | Class => cssSelectorBuilder.class
  | Attr => cssSelectorBuilder.attr
  | PseudoClass => cssSelectorBuilder.pseudoClass
  | PseudoElement => cssSelectorBuilder.pseudoElement
  end.

Definition append (p : part) : CssClass.t -> string -> completion CssClass.t :=
  match p with
  | Element => CssClass.element
  | Id => CssClass.id
  | Class => CssClass.class
  | Attr => CssClass.attr
  | PseudoClass => CssClass.pseudoClass
  | PseudoElement => CssClass.pseudoElement
  end.

(** The text a segment of kind [p] with argument [v] contributes: the
    argument with the delimiters of its kind. *)
Definition token (p : part) (v : string) : string :=
  match p with
  | Element => v
  | Id => "#" ++ v
  | Class => "." ++ v
  | Attr => "[" ++ v ++ "]"
  | PseudoClass => ":" ++ v
  | PseudoElement => "::" ++ v
  end.

Inductive t : Type :=
| Start (p : part) (v : string)                (* builder.p(v) *)
| Append (s : t) (p : part) (v : string)       (* s.p(v) *)
| Combine (s1 : t) (op : string) (s2 : t).     (* builder.combine(s1, op, s2) *)

Fixpoint run (s : t) : completion CssClass.t :=
  match s with
  | Start p v => Normal (start p v)
  | Append s p v => cbind (run s) (fun f => append p f v)
  | Combine s1 op s2 =>
      cbind (run s1) (fun f1 =>
      cbind (run s2) (fun f2 =>
      Normal (cssSelectorBuilder.combine f1 op f2)))
  end.

(** Some segment of the script has a kind satisfying [q]. *)
Fixpoint has (q : part -> bool) (s : t) : bool :=
  match s with
  | Start p _ => q p
  | Append s p _ => has q s || q p
  | Combine s1 _ s2 => has q s1 || has q s2
  end.

Definition is_element (p : part) : bool :=
  match p with Element => true | _ => false end.
Definition is_id (p : part) : bool :=
  match p with Id => true | _ => false end.
Definition is_pseudoElement (p : part) : bool :=
  match p with PseudoElement => true | _ => false end.
(** The kinds that come after a class in the prescribed order. *)
Definition after_class (p : part) : bool :=
  match p with Attr | PseudoClass | PseudoElement => true | _ => false end.

(** The script is a chain of method calls on [builder.element(...)]. *)
Fixpoint started_by_element (s : t) : bool :=
  match s with
  | Start p _ => is_element p
  | Append s _ _ => started_by_element s
  | Combine _ _ _ => false
  end.

(** The script is a result of [combine], possibly with calls chained on it. *)
Fixpoint started_by_combine (s : t) : bool :=
  match s with
  | Start _ _ => false
  | Append s _ _ => started_by_combine s
  | Combine _ _ _ => true
  end.

(** Every string given to the script: tokens and combinators. *)
Fixpoint strings (s : t) : list string :=
  match s with
  | Start _ v => [v]
  | Append s _ v => (strings s ++ [v])%list
  | Combine s1 op s2 => (strings s1 ++ op :: strings s2)%list
  end.

End Script.

(** ** class CssClass and the facade, over a store of objects

    Objects live in a store and are named by their location;
    [new CssClass(...)] allocates the next location.  A computation takes
    the store and gives a completion and the store it leaves. *)

Module Store.
Import JsString.

Definition loc : Type := nat.
Definition store : Type := list CssClass.t.
Definition M (A : Type) : Type := store -> completion A * store.

Definition ret {A} (a : A) : M A := fun h => (Normal a, h).
Definition throw {A} (e : exception) : M A := fun h => (Throw e, h).
Definition bind {A B} (m : M A) (k : A -> M B) : M B :=
  fun h => match m h with
           | (Normal a, h') => k a h'
           | (Throw e, h') => (Throw e, h')
           end.

Notation "x <- m ;; k" := (bind m (fun x => k))
  (at level 61, m at next level, right associativity).

(** Reading the fields of [this]; a method called on no object is a TypeError. *)
Definition load (l : loc) : M CssClass.t :=
  fun h => match nth_error h l with
           | Some o => (Normal o, h)
           | None => (Throw TypeError, h)
           end.

(** [new CssClass(value, el)] *)
Definition new_CssClass (value : string) (el : bool) : M loc :=
  fun h => (Normal (List.length h), (h ++ [CssClass.new value el])%list).

Import CssClass.

Definition element (this : loc) (val : string) : M loc :=
  o <- load this ;;
  if elem o then throw (Error err1)
  else if truthy (value o) then throw (Error err2)
  else new_CssClass (value o ++ val) (elem o).

Definition id (this : loc) (val : string) : M loc :=
  o <- load this ;;
  if includes (value o) "#" then throw (Error err1)
  else if includes (value o) "." || includes (value o) "["
          || includes (value o) ":" || includes (value o) "::"
       then throw (Error err2)
  else new_CssClass (value o ++ "#" ++ val) (elem o).

Definition class (this : loc) (val : string) : M loc :=
  o <- load this ;;
  if includes (value o) "[" || includes (value o) ":" || includes (value o) "::"
  then throw (Error err2)
  else new_CssClass (value o ++ "." ++ val) (elem o).

Definition attr (this : loc) (val : string) : M loc :=
  o <- load this ;;
  if includes (value o) ":" || includes (value o) "::"
  then throw (Error err2)
  else new_CssClass (value o ++ "[" ++ val ++ "]") (elem o).

Definition pseudoClass (this : loc) (val : string) : M loc :=
  o <- load this ;;
  if includes (value o) "::" then throw (Error err2)
  else new_CssClass (value o ++ ":" ++ val) (elem o).

Definition pseudoElement (this : loc) (val : string) : M loc :=
  o <- load this ;;
  if includes (value o) "::" then throw (Error err1)
  else new_CssClass (value o ++ "::" ++ val) (elem o).

Definition stringify (this : loc) : M string :=
  o <- load this ;; ret (value o).

(** [cssSelectorBuilder.combine] *)
Definition combine (selector1 : loc) (combine : string) (selector2 : loc) : M loc :=
  s1 <- stringify selector1 ;;
  s2 <- stringify selector2 ;;
  new_CssClass (s1 ++ " " ++ combine ++ " " ++ s2) false.

(** A call of one of the six chaining methods, or of [combine]. *)
Inductive call : Type :=
| Method (p : Script.part) (this : loc) (val : string)
| CombineCall (selector1 : loc) (op : string) (selector2 : loc).

Definition method (p : Script.part) : loc -> string -> M loc :=
  match p with
  | Script.Element => element
  | Script.Id => id
  | Script.Class => class
  | Script.Attr => attr
  | Script.PseudoClass => pseudoClass
  | Script.PseudoElement => pseudoElement
  end.

Definition exec (c : call) : M loc :=
  match c with
  | Method p this val => method p this val
  | CombineCall s1 op s2 => combine s1 op s2
  end.

(** What [l.stringify()] returns in store [h]. *)
Definition render (h : store) (l : loc) : completion string := fst (stringify l h).

End Store.

(** ** function Rectangle

    JavaScript numbers are taken as an abstract type with its
    multiplication.  [getArea] is an arrow function closed over [this]: it
    reads the two fields of the object when it is called. *)

Module Rectangle.
Section Number.
Context {number : Type} (mul : number -> number -> number).

Record t : Type := mk { width : number; height : number }.

(** [new Rectangle(width, height)] *)
Definition new (width height : number) : t :=
  {| width := width; height := height |}.

Definition getArea (this : t) : number := mul (height this) (width this).

End Number.
Arguments t : clear implicits.
End Rectangle.

(** ** function getJSON, function fromJSON

    The two functions call three built-ins of the host: [JSON.stringify],
    [JSON.parse] and [Object.setPrototypeOf].  They are modelled after
    ECMA-262 (SerializeJSONProperty and QuoteJSONString, the JSON grammar,
    CreateDataProperty, Object.setPrototypeOf) on the values made of null,
    booleans, numbers, strings, arrays and objects with string keys.
    Numbers are an abstract type with the host's test for finiteness, its
    [Number::toString] and its [StringToNumber].  A string stands for the
    sequence of its characters as code units below 256; where a text leaves
    that range (an escape \uXXXX above 00FF) the model of [JSON.parse] says
    nothing ([None]). *)

Module Json.

(** A prototype object: a capability set.  [Object_prototype] and
    [Array_prototype] are the ones of literals, which have no toJSON
    method.  For another prototype, [toJSON] is [None] when no callable
    toJSON is found on it or on its chain, and [Some s] when one is found
    and returns the string [s]; a toJSON that returns something else is not
    represented. *)
Inductive prototype : Type :=
| Object_prototype
| Array_prototype
| Prototype (name : string) (toJSON : option string).

Definition toJSON_of (proto : prototype) : option string :=
  match proto with
  | Object_prototype | Array_prototype => None
  | Prototype _ toJSON => toJSON
  end.

Section Host.
Context {number : Type}.
Variable isFinite : number -> bool.
Variable Number_toString : number -> string.
Variable StringToNumber : string -> number.

(** An array holds its elements in index order; an object holds its own
    enumerable properties in the order of its own property keys. *)
#[local] Unset Elimination Schemes.
Inductive value : Type :=
| Null
| Bool (b : bool)
| Number (n : number)
| Str (s : string)
| Array (proto : prototype) (items : list value)
| Object (proto : prototype) (props : list (string * value)).
#[local] Set Elimination Schemes.

(** *** JSON.stringify *)

Definition hex_char (n : N) : ascii :=
  match String.get (N.to_nat n) "0123456789abcdef" with
  | Some c => c
  | None => "0"%char
  end.

(** QuoteJSONString, one code unit. *)
Definition quote_char (c : ascii) : string :=
  if Ascii.eqb c "008" then "\b"
  else if Ascii.eqb c "009" then "\t"
  else if Ascii.eqb c "010" then "\n"
  else if Ascii.eqb c "012" then "\f"
  else if Ascii.eqb c "013" then "\r"
  else if Ascii.eqb c "034" then String "\" (String "034" "")
  else if Ascii.eqb c "\" then "\\"
  else if (N_of_ascii c <? 32)%N then
    "\u00" ++ String (hex_char (N_of_ascii c / 16)) (String (hex_char (N_of_ascii c mod 16)) "")
  else String c "".

Fixpoint quote_body (s : string) : string :=
  match s with
  | EmptyString => ""
  | String c s' => quote_char c ++ quote_body s'
  end.

Definition QuoteJSONString (s : string) : string :=
  String "034" (quote_body s ++ String "034" "").

Definition has_own_property (k : string) (props : list (string * value)) : bool :=
  existsb (fun kv => String.eqb k (fst kv)) props.

(** What the call of the toJSON method of [v] returns, when [v] is an
    array or an object and GetV(v, "toJSON") is callable.  An own property
    is found before the prototype, and no value of a property is callable
    here. *)
Definition toJSON_result (v : value) : option string :=
  match v with
  | Array proto _ => toJSON_of proto
  | Object proto props =>
      if has_own_property "toJSON" props then None else toJSON_of proto
  | _ => None
  end.

(** SerializeJSONProperty with SerializeJSONArray and SerializeJSONObject,
    without replacer or gap. *)
Fixpoint SerializeJSONProperty (v : value) : string :=
  match toJSON_result v with
  | Some s => QuoteJSONString s
  | None =>
      match v with
      | Null => "null"
      | Bool true => "true"
      | Bool false => "false"
      | Number n => if isFinite n then Number_toString n else "null"
      | Str s => QuoteJSONString s
      | Array _ items =>
          "[" ++ String.concat "," (List.map SerializeJSONProperty items) ++ "]"
      | Object _ props =>
          "{" ++ String.concat ","
                   (List.map (fun kv => QuoteJSONString (fst kv) ++ ":" ++
                                        SerializeJSONProperty (snd kv)) props)
              ++ "}"
      end
  end.

(** The text of a value by its kind alone: what SerializeJSONProperty
    gives where no toJSON method is found ([JsonFacts.ser_plain]). *)
Fixpoint json_text (v : value) : string :=
  match v with
  | Null => "null"
  | Bool true => "true"
  | Bool false => "false"
  | Number n => if isFinite n then Number_toString n else "null"
  | Str s => QuoteJSONString s
  | Array _ items =>
      "[" ++ String.concat "," (List.map json_text items) ++ "]"
  | Object _ props =>
      "{" ++ String.concat ","
               (List.map (fun kv => QuoteJSONString (fst kv) ++ ":" ++
                                    json_text (snd kv)) props)
          ++ "}"
  end.

Definition JSON_stringify (v : value) : string := SerializeJSONProperty v.

(** *** JSON.parse *)

Inductive parsed (A : Type) : Type :=
| Parsed (a : A) (rest : string)
| Syntax                          (* the text is not JSON: SyntaxError *)
| Unmodelled                      (* the text leaves the model *)
| Exhausted.                      (* the fuel ran out *)
Arguments Parsed {A} a rest.
Arguments Syntax {A}.
Arguments Unmodelled {A}.
Arguments Exhausted {A}.

Definition pmap {A B} (f : A -> B) (p : parsed A) : parsed B :=
  match p with
  | Parsed a rest => Parsed (f a) rest
  | Syntax => Syntax
  | Unmodelled => Unmodelled
  | Exhausted => Exhausted
  end.

(** JSON white space: tab, line feed, carriage return, space. *)
Definition is_ws (c : ascii) : bool :=
  Ascii.eqb c "009" || Ascii.eqb c "010" || Ascii.eqb c "013" || Ascii.eqb c " ".

Fixpoint skip_ws (s : string) : string :=
  match s with
  | String c s' => if is_ws c then skip_ws s' else s
  | EmptyString => s
  end.

Definition is_digit (c : ascii) : bool :=
  (48 <=? N_of_ascii c)%N && (N_of_ascii c <=? 57)%N.

Definition hex_digit (c : ascii) : option N :=
  let n := N_of_ascii c in
  if is_digit c then Some (n - 48)%N
  else if (97 <=? n)%N && (n <=? 102)%N then Some (n - 87)%N
  else if (65 <=? n)%N && (n <=? 70)%N then Some (n - 55)%N
  else None.

Definition hex4 (a b c d : ascii) : option N :=
  match hex_digit a, hex_digit b, hex_digit c, hex_digit d with
  | Some x, Some y, Some z, Some w => Some (((x * 16 + y) * 16 + z) * 16 + w)%N
  | _, _, _, _ => None
  end.

(** The character after a backslash, for the escapes of one character. *)
Definition simple_escape (e : ascii) : option ascii :=
  if Ascii.eqb e "034" then Some "034"%char
  else if Ascii.eqb e "\" then Some "\"%char
  else if Ascii.eqb e "/" then Some "/"%char
  else if Ascii.eqb e "b" then Some "008"%char
  else if Ascii.eqb e "f" then Some "012"%char
  else if Ascii.eqb e "n" then Some "010"%char
  else if Ascii.eqb e "r" then Some "013"%char
  else if Ascii.eqb e "t" then Some "009"%char
  else None.

(** The characters of a string literal after its opening quote, up to and
    with the closing quote. *)
Fixpoint string_body (s : string) : parsed string :=
  match s with
  | EmptyString => Syntax
  | String c s1 =>
      if Ascii.eqb c "034" then Parsed "" s1
      else if Ascii.eqb c "\" then
        match s1 with
        | EmptyString => Syntax
        | String e s2 =>
            match simple_escape e with
            | Some ch => pmap (String ch) (string_body s2)
            | None =>
                if Ascii.eqb e "u" then
                  match s2 with
                  | String h1 (String h2 (String h3 (String h4 s3))) =>
                      match hex4 h1 h2 h3 h4 with
                      | Some n =>
                          if (n <? 256)%N
                          then pmap (String (ascii_of_N n)) (string_body s3)
                          else Unmodelled
                      | None => Syntax
                      end
                  | _ => Syntax
                  end
                else Syntax
            end
        end
      else if (N_of_ascii c <? 32)%N then Syntax
      else pmap (String c) (string_body s1)
  end.

(** The longest prefix of characters that satisfy [p], and what follows. *)
Fixpoint span (p : ascii -> bool) (s : string) : string * string :=
  match s with
  | String c s' =>
      if p c then let (a, b) := span p s' in (String c a, b) else ("", s)
  | EmptyString => ("", "")
  end.

(** The characters of which number tokens are made. *)
Definition number_char (c : ascii) : bool :=
  is_digit c || Ascii.eqb c "-" || Ascii.eqb c "+" || Ascii.eqb c "."
  || Ascii.eqb c "e" || Ascii.eqb c "E".

(** One digit at least, then what follows the digits. *)
Definition digits1 (s : string) : option string :=
  match s with
  | String c _ => if is_digit c then Some (snd (span is_digit s)) else None
  | EmptyString => None
  end.

Definition int_part (s : string) : option string :=
  let s := match s with
           | String c s' => if Ascii.eqb c "-" then s' else s
           | EmptyString => s
           end in
  match s with
  | String c s' =>
      if Ascii.eqb c "0" then Some s' else digits1 s
  | EmptyString => None
  end.

Definition frac_part (s : string) : option string :=
  match s with
  | String c s' => if Ascii.eqb c "." then digits1 s' else Some s
  | EmptyString => Some s
  end.

Definition exp_part (s : string) : option string :=
  match s with
  | String c s' =>
      if Ascii.eqb c "e" || Ascii.eqb c "E" then
        match s' with
        | String d s'' =>
            if Ascii.eqb d "+" || Ascii.eqb d "-" then digits1 s'' else digits1 s'
        | EmptyString => None
        end
      else Some s
  | EmptyString => Some s
  end.

(** The JSON grammar of a number: an optional minus sign; a zero, or a
    digit from 1 to 9 and then digits; optionally a point and one digit or
    more; optionally e or E, an optional sign and one digit or more. *)
Definition number_grammar (tok : string) : bool :=
  match int_part tok with
  | Some s1 =>
      match frac_part s1 with
      | Some s2 =>
          match exp_part s2 with
          | Some EmptyString => true
          | _ => false
          end
      | None => false
      end
  | None => false
  end.

(** A number token ends at the first character of which no number is made:
    in a JSON text, white space, a comma, a bracket, a brace or the end. *)
Definition number_token (s : string) : parsed number :=
  let (tok, rest) := span number_char s in
  if number_grammar tok then Parsed (StringToNumber tok) rest else Syntax.

(** An array index: the canonical numeral of an integer below 2^32 - 1. *)
Fixpoint digits_value (s : string) (acc : N) : N :=
  match s with
  | String c s' => digits_value s' (acc * 10 + (N_of_ascii c - 48))%N
  | EmptyString => acc
  end.

Definition array_index (k : string) : option N :=
  match k with
  | EmptyString => None
  | String c k' =>
      if negb (String.eqb (fst (span is_digit k)) k) then None
      else if Ascii.eqb c "0" && negb (String.eqb k' "") then None
      else if (10 <? N.of_nat (String.length k))%N then None
      else if (digits_value k 0 <? 4294967295)%N then Some (digits_value k 0)
      else None
  end.

(** [k] comes before [k'] in the order of own property keys when [k'] is
    already a property: only an array index comes before, and it comes
    before every other key that is no smaller array index. *)
Definition key_before (k k' : string) : bool :=
  match array_index k, array_index k' with
  | Some i, Some j => (i <? j)%N
  | Some _, None => true
  | None, _ => false
  end.

(** CreateDataProperty on an ordinary object: an existing property gets the
    new value in place, a new one takes its place in the order of keys. *)
Fixpoint CreateDataProperty (props : list (string * value)) (k : string) (v : value)
  : list (string * value) :=
  match props with
  | [] => [(k, v)]
  | (k', v') :: props' =>
      if String.eqb k k' then (k, v) :: props'
      else if key_before k k' && negb (existsb (fun kv => String.eqb k (fst kv)) props')
           then (k, v) :: (k', v') :: props'
      else (k', v') :: CreateDataProperty props' k v
  end.

Definition object_of_members (members : list (string * value)) : value :=
  Object Object_prototype
    (fold_left (fun props kv => CreateDataProperty props (fst kv) (snd kv)) members []).

(** The text after [word], when the text starts with it. *)
Fixpoint strip_prefix (word s : string) : option string :=
  match word, s with
  | EmptyString, _ => Some s
  | String a word', String b s' =>
      if Ascii.eqb a b then strip_prefix word' s' else None
  | String _ _, EmptyString => None
  end.

Definition literal (word : string) (v : value) (s : string) : parsed value :=
  match strip_prefix word s with
  | Some rest => Parsed v rest
  | None => Syntax
  end.

(** The text after the character [c], when [c] comes next after white
    space. *)
Definition expect (c : ascii) (s : string) : option string :=
  match skip_ws s with
  | String d rest => if Ascii.eqb d c then Some rest else None
  | EmptyString => None
  end.

(** A JSON value, after white space.  Every call consumes fuel, and
    [JSON_parse] gives enough of it for every text
    ([JsonFacts.JSON_parse_fuel]). *)
Fixpoint json_value (fuel : nat) (s : string) : parsed value :=
  match fuel with
  | O => Exhausted
  | S fuel =>
      match skip_ws s with
      | EmptyString => Syntax
      | String c r =>
          if Ascii.eqb c "{" then
            match expect "}" r with
            | Some r' => Parsed (object_of_members []) r'
            | None => pmap object_of_members (json_members fuel r)
            end
          else if Ascii.eqb c "[" then
            match expect "]" r with
            | Some r' => Parsed (Array Array_prototype []) r'
            | None => pmap (Array Array_prototype) (json_elements fuel r)
            end
          else if Ascii.eqb c "034" then pmap Str (string_body r)
          else if Ascii.eqb c "-" || is_digit c then
            pmap Number (number_token (String c r))
          else if Ascii.eqb c "t" then literal "true" (Bool true) (String c r)
          else if Ascii.eqb c "f" then literal "false" (Bool false) (String c r)
          else if Ascii.eqb c "n" then literal "null" Null (String c r)
          else Syntax
      end
  end

with json_elements (fuel : nat) (s : string) : parsed (list value) :=
  match fuel with
  | O => Exhausted
  | S fuel =>
      match json_value fuel s with
      | Parsed v r =>
          match expect "," r with
          | Some r' => pmap (cons v) (json_elements fuel r')
          | None =>
              match expect "]" r with
              | Some r' => Parsed [v] r'
              | None => Syntax
              end
          end
      | Syntax => Syntax
      | Unmodelled => Unmodelled
      | Exhausted => Exhausted
      end
  end

with json_members (fuel : nat) (s : string) : parsed (list (string * value)) :=
  match fuel with
  | O => Exhausted
  | S fuel =>
      match expect "034" s with
      | Some r =>
          match string_body r with
          | Parsed k r1 =>
              match expect ":" r1 with
              | Some r2 =>
                  match json_value fuel r2 with
                  | Parsed v r3 =>
                      match expect "," r3 with
                      | Some r4 => pmap (cons (k, v)) (json_members fuel r4)
                      | None =>
                          match expect "}" r3 with
                          | Some r4 => Parsed [(k, v)] r4
                          | None => Syntax
                          end
                      end
                  | Syntax => Syntax
                  | Unmodelled => Unmodelled
                  | Exhausted => Exhausted
                  end
              | None => Syntax
              end
          | Syntax => Syntax
          | Unmodelled => Unmodelled
          | Exhausted => Exhausted
          end
      | None => Syntax
      end
  end.

(** [JSON.parse(text)]: one value, white space around it, nothing else. *)
Definition JSON_parse (text : string) : option (completion value) :=
  match json_value (2 * String.length text + 1) text with
  | Parsed v rest =>
      match skip_ws rest with
      | EmptyString => Some (Normal v)
      | String _ _ => Some (Throw SyntaxError)
      end
  | Syntax => Some (Throw SyntaxError)
  | Unmodelled => None
  | Exhausted => None
  end.

(** *** Object.setPrototypeOf(O, proto)

    RequireObjectCoercible throws on null; a value that is not an object
    is returned as it is; an ordinary object gets the prototype. *)
Definition Object_setPrototypeOf (O : value) (proto : prototype) : completion value :=
  match O with
  | Null => Throw TypeError
  | Bool _ | Number _ | Str _ => Normal O
  | Array _ items => Normal (Array proto items)
  | Object _ props => Normal (Object proto props)
  end.

(** *** The two functions of the source *)

Definition getJSON (obj : value) : string := JSON_stringify obj.

Definition fromJSON (proto : prototype) (json : string) : option (completion value) :=
  match JSON_parse json with
  | Some (Normal v) => Some (Object_setPrototypeOf v proto)
  | Some (Throw e) => Some (Throw e)
  | None => None
  end.

(** *** The values the round trip is about *)

Fixpoint all_chars (p : ascii -> bool) (s : string) : bool :=
  match s with
  | EmptyString => true
  | String c s' => p c && all_chars p s'
  end.

(** A number that [JSON.stringify] writes as a number token, and that the
    host reads back from that token: for the numbers of JavaScript, the
    finite ones but the negative zero. *)
Definition json_number (n : number) : Prop :=
  isFinite n = true /\
  all_chars number_char (Number_toString n) = true /\
  number_grammar (Number_toString n) = true /\
  StringToNumber (Number_toString n) = n.

(** The properties are in the order of own property keys, with no key
    twice: defining them one after the other gives the same list. *)
Definition own_property_order (props : list (string * value)) : Prop :=
  object_of_members props = Object Object_prototype props.

(** Plain data: null, booleans, strings, numbers as above, arrays and
    objects of plain data with the prototypes that literals have. *)
Fixpoint plain (v : value) : Prop :=
  match v with
  | Null | Bool _ | Str _ => True
  | Number n => json_number n
  | Array proto items =>
      proto = Array_prototype /\
      fold_right (fun x rest => plain x /\ rest) True items
  | Object proto props =>
      proto = Object_prototype /\
      own_property_order props /\
      fold_right (fun kv rest => plain (snd kv) /\ rest) True props
  end.

Definition with_prototype (proto : prototype) (v : value) : value :=
  match v with
  | Array _ items => Array proto items
  | Object _ props => Object proto props
  | _ => v
  end.

(** The value with the prototype that a literal of its kind has. *)
Definition as_literal (v : value) : value :=
  match v with
  | Array _ items => Array Array_prototype items
  | Object _ props => Object Object_prototype props
  | _ => v
  end.

(** A value whose attributes are plain data and for which no toJSON method
    is found, whatever else its own prototype provides. *)
Definition plain_attributes (v : value) : Prop :=
  plain (as_literal v) /\ toJSON_result v = None.

Definition prototype_of (v : value) : option prototype :=
  match v with
  | Array proto _ | Object proto _ => Some proto
  | _ => None
  end.

(** The own properties of an object, the elements of an array. *)
Definition properties (v : value) : list (string * value) :=
  match v with Object _ props => props | _ => [] end.
Definition elements (v : value) : list value :=
  match v with Array _ items => items | _ => [] end.

(** What can follow a value in a text that [JSON.stringify] writes: the
    end of the text, a comma, a closing bracket or a closing brace. *)
Definition delimited (rest : string) : bool :=
  match rest with
  | EmptyString => true
  | String c _ => Ascii.eqb c "," || Ascii.eqb c "]" || Ascii.eqb c "}"
  end.

(** What [JSON.stringify] writes for [v] is read back as [v], before any
    text that starts with a delimiter and with fuel for its length. *)
Definition reads_back (v : value) : Prop :=
  plain v -> forall fuel rest,
    String.length (json_text v) <= fuel -> delimited rest = true ->
    json_value fuel (json_text v ++ rest) = Parsed v rest.

End Host.

Arguments Parsed {A} a rest.
Arguments Syntax {A}.
Arguments Unmodelled {A}.
Arguments Exhausted {A}.



Arguments value : clear implicits.
Arguments Null {number}.
Arguments Bool {number} b.
Arguments Str {number} s.

End Json.

(** An instance of the host's numbers for examples: the integers, written
    in decimal.  It agrees with JavaScript on the integers up to 2^53 in
    magnitude and on their tokens. *)

Module IntegerHost.

Definition isFinite (z : Z) : bool := true.
Definition Number_toString (z : Z) : string := NilZero.string_of_int (Z.to_int z).
Definition StringToNumber (tok : string) : Z :=
  match NilZero.int_of_string tok with
  | Some d => Z.of_int d
  | None => 0%Z
  end.

Definition getJSON : Json.value Z -> string :=
  Json.getJSON isFinite Number_toString.
Definition fromJSON : Json.prototype -> string -> option (completion (Json.value Z)) :=
  Json.fromJSON StringToNumber.
Definition plain_attributes : Json.value Z -> Prop :=
  Json.plain_attributes isFinite Number_toString StringToNumber.

End IntegerHost.

(** An instance of the host's numbers with the two kinds of number that
    [JSON.stringify] does not write as they are: the integers, the negative
    zero, written as the zero is, and NaN, which is not finite. *)

Module SpecialHost.

Inductive number : Type :=
| Int (z : Z)
| NegativeZero
| NaN.

Definition isFinite (n : number) : bool :=
  match n with
  | NaN => false
  | Int _ | NegativeZero => true
  end.

Definition Number_toString (n : number) : string :=
  match n with
  | Int z => IntegerHost.Number_toString z
  | NegativeZero => "0"
  | NaN => "NaN"
  end.

Definition StringToNumber (tok : string) : number :=
  if String.eqb tok "-0" then NegativeZero
  else match NilZero.int_of_string tok with
       | Some d => Int (Z.of_int d)
       | None => NaN
       end.

Definition getJSON : Json.value number -> string :=
  Json.getJSON isFinite Number_toString.
Definition fromJSON : Json.prototype -> string -> option (completion (Json.value number)) :=
  Json.fromJSON StringToNumber.

End SpecialHost.

(** ** The prescribed order of the parts of a selector

    The order is the one of the message [err2] and of the comment above
    the class: element, id, class, attribute, pseudo-class, pseudo-element,
    of which class, attribute and pseudo-class can occur several times. *)

Module Order.
Import JsString Script.

Definition rank (p : part) : nat :=
  match p with
  | Element => 0
  | Id => 1
  | Class => 2
  | Attr => 3
  | PseudoClass => 4
  | PseudoElement => 5
  end.

Definition repeatable (p : part) : bool :=
  match p with
  | Class | Attr | PseudoClass => true
  | Element | Id | PseudoElement => false
  end.

(** A part of kind [p] may come after a part of kind [q]. *)
Definition may_follow (q p : part) : bool :=
  (rank q <? rank p)%nat || ((rank q =? rank p)%nat && repeatable p).

Definition same_kind (q p : part) : bool := (rank q =? rank p)%nat.

(** The delimiter that a part of kind [p] starts with. *)
Definition mark (p : part) : string :=
  match p with
  | Element => ""
  | Id => "#"
  | Class => "."
  | Attr => "["
  | PseudoClass => ":"
  | PseudoElement => "::"
  end.

(** The kinds that come after an id in the order. *)
Definition after_id (p : part) : bool :=
  match p with
  | Class | Attr | PseudoClass | PseudoElement => true
  | Element | Id => false
  end.

(** The kind of the last call of a chain; none for a result of [combine]. *)
Definition last_kind (s : Script.t) : option part :=
  match s with
  | Start p _ => Some p
  | Append _ p _ => Some p
  | Combine _ _ _ => None
  end.

(** Chains whose kinds follow the order, and [combine] of such. *)
Fixpoint well_formed (s : Script.t) : bool :=
  match s with
  | Start _ _ => true
  | Append s p _ =>
      well_formed s &&
      match last_kind s with
      | Some q => may_follow q p
      | None => false
      end
  | Combine s1 _ s2 => well_formed s1 && well_formed s2
  end.

(** An argument of a part of kind [p] that does not contain the characters
    for which the calls that may follow search; the argument of a
    pseudo-class is moreover not empty, so that no two colons meet. *)
Definition admissible (p : part) (v : string) : Prop :=
  match p with
  | Element => free_of "#" v /\ free_of "." v /\ free_of "[" v /\ free_of ":" v
  | Id | Class => free_of "[" v /\ free_of ":" v
  | Attr => free_of ":" v
  | PseudoClass => free_of ":" v /\ v <> ""
  | PseudoElement => True
  end.

Fixpoint admissible_script (s : Script.t) : Prop :=
  match s with
  | Start p v => admissible p v
  | Append s p v => admissible_script s /\ admissible p v
  | Combine s1 _ s2 => admissible_script s1 /\ admissible_script s2
  end.

(** The text of a script: the tokens of a chain one after the other, the
    two sides of [combine] around the operator between two spaces. *)
Fixpoint render (s : Script.t) : string :=
  match s with
  | Start p v => token p v
  | Append s p v => render s ++ token p v
  | Combine s1 op s2 => render s1 ++ " " ++ op ++ " " ++ render s2
  end.

(** Two colons occur neither in the text nor across its end and a colon
    that follows it. *)
Definition no_colons_meet (text : string) : Prop :=
  includes (text ++ ":") "::" = false.

(** What holds of the text of an admissible chain whose last part is of
    kind [q]. *)
Definition text_after (q : part) (text : string) : Prop :=
  match q with
  | Element =>
      free_of "#" text /\ free_of "." text /\ free_of "[" text /\ free_of ":" text
  | Id | Class => free_of "[" text /\ free_of ":" text
  | Attr => free_of ":" text
  | PseudoClass => no_colons_meet text
  | PseudoElement => True
  end.

(** The example of the comment above the class. *)
Definition documented_example : Script.t :=
  Combine
    (Append (Append (Append (Start Element "div") Id "main") Class "container")
       Class "draggable")
    "+"
    (Combine (Append (Start Element "table") Id "data")
       "~"
       (Combine (Append (Start Element "tr") PseudoClass "nth-of-type(even)")
          " "
          (Append (Start Element "td") PseudoClass "nth-of-type(even)"))).

End Order.

(** ** Client programs over the store *)

Module StoreScript.
Import Store.

(** The starters of [cssSelectorBuilder], allocating. *)
Definition element (value : string) : M loc := new_CssClass value true.
Definition id (value : string) : M loc := new_CssClass ("#" ++ value) false.
Definition class (value : string) : M loc := new_CssClass ("." ++ value) false.
Definition attr (value : string) : M loc := new_CssClass ("[" ++ value ++ "]") false.
Definition pseudoClass (value : string) : M loc := new_CssClass (":" ++ value) false.
Definition pseudoElement (value : string) : M loc := new_CssClass ("::" ++ value) false.

Definition start (p : Script.part) : string -> M loc :=
  match p with
  | Script.Element => element
  | Script.Id => id
  | Script.Class => class
  | Script.Attr => attr
  | Script.PseudoClass => pseudoClass
  | Script.PseudoElement => pseudoElement
  end.

(** A script evaluated in the store, from left to right. *)
Fixpoint run (s : Script.t) : M loc :=
  match s with
  | Script.Start p v => start p v
  | Script.Append s p v => l <- run s ;; method p l v
  | Script.Combine s1 op s2 =>
      l1 <- run s1 ;; l2 <- run s2 ;; combine l1 op l2
  end.

End StoreScript.

(** * Facts *)

(** ** Substring search *)

Module JsStringFacts.
Import JsString.

Lemma prefix_nil (h : string) : String.prefix "" h = true.
Proof. now destruct h. Qed.

Lemma prefix_app (n a b : string) :
  String.prefix n a = true -> String.prefix n (a ++ b) = true.
Proof.
  revert a; induction n as [|c n IH]; intros a H.
  - apply prefix_nil.
  - destruct a as [|d a]; simpl in *; [discriminate|].
    destruct (ascii_dec c d); [auto | discriminate].
Qed.

Lemma prefix_self_app (n b : string) : String.prefix n (n ++ b) = true.
Proof.
  induction n as [|c n IH]; simpl.
  - apply prefix_nil.
  - destruct (ascii_dec c c); [assumption | contradiction].
Qed.

Lemma prefix_split (n h : string) :
  String.prefix n h = true -> exists b, h = n ++ b.
Proof.
  revert h; induction n as [|c n IH]; intros h H.
  - now exists h.
  - destruct h as [|d h]; simpl in H; [discriminate|].
    destruct (ascii_dec c d) as [->|]; [|discriminate].
    destruct (IH _ H) as [b ->]. now exists b.
Qed.

Lemma includes_prefix (h n : string) :
  String.prefix n h = true -> includes h n = true.
Proof. intros H; destruct h; simpl in *; now rewrite H. Qed.

Lemma includes_app_l (a b n : string) :
  includes a n = true -> includes (a ++ b) n = true.
Proof.
  induction a as [|c a IH]; intros H.
  - simpl in H. rewrite orb_false_r in H. destruct n; [|discriminate].
    apply includes_prefix, prefix_nil.
  - cbn [includes] in H. apply orb_true_iff in H as [H|H].
    + apply includes_prefix, prefix_app, H.
    + cbn [append includes]. rewrite (IH H). apply orb_true_r.
Qed.

Lemma includes_app_r (a b n : string) :
  includes b n = true -> includes (a ++ b) n = true.
Proof.
  intros H; induction a as [|c a IH]; [assumption|].
  cbn [append includes]. rewrite IH. apply orb_true_r.
Qed.

(** [includes] is substring search. *)
Lemma includes_spec (h n : string) :
  includes h n = true <-> exists a b, h = a ++ n ++ b.
Proof.
  split.
  - induction h as [|c h IH]; intros H.
    + simpl in H. rewrite orb_false_r in H. destruct n; [|discriminate].
      now exists "", "".
    + cbn [includes] in H. apply orb_true_iff in H as [H|H].
      * destruct (prefix_split _ _ H) as [b E]. exists "", b. exact E.
      * destruct (IH H) as (a & b & ->). now exists (String c a), b.
  - intros (a & b & ->).
    apply includes_app_r, includes_prefix, prefix_self_app.
Qed.

(** A needle of one character is found in a concatenation exactly when it
    is found in one of the two parts. *)
Lemma includes_char_app (c : ascii) (a b : string) :
  includes (a ++ b) (String c "") = includes a (String c "") || includes b (String c "").
Proof.
  induction a as [|d a IH].
  - reflexivity.
  - cbn [append includes]. rewrite IH, orb_assoc. f_equal.
    simpl. destruct (ascii_dec c d); [now rewrite !prefix_nil | reflexivity].
Qed.

Lemma includes_nonempty (h n : string) :
  includes h n = true -> n <> "" -> truthy h = true.
Proof.
  destruct h; simpl; [|reflexivity].
  destruct n; [congruence | discriminate].
Qed.

Lemma truthy_app_r (a b : string) : truthy b = true -> truthy (a ++ b) = true.
Proof. destruct a; simpl; auto. Qed.

End JsStringFacts.

(** ** The selector builder as values *)

Module CssFacts.
Import JsString JsStringFacts CssClass Script.

Lemma errors_differ : DuplicateSegmentError <> SegmentOrderError.
Proof. discriminate. Qed.

Lemma includes_colons (s : string) :
  includes s "::" = true -> includes s ":" = true.
Proof.
  intros H. apply includes_spec in H as (a & b & ->).
  apply includes_spec. now exists a, (":" ++ b).
Qed.

(** The three-way test of [class] and the two-way test of [attr] and [id]
    only look for one colon: the search for two colons adds nothing. *)
Lemma colon_tests (s : string) :
  includes s ":" || includes s "::" = includes s ":".
Proof.
  destruct (includes s ":") eqn:E; [reflexivity|].
  destruct (includes s "::") eqn:E2; [|reflexivity].
  apply includes_colons in E2. congruence.
Qed.

Lemma append_Normal (p : part) (f f' : CssClass.t) (v : string) :
  append p f v = Normal f' ->
  value f' = value f ++ token p v /\ elem f' = elem f.
Proof.
  destruct p; cbn [append token];
    [unfold element | unfold id | unfold class | unfold attr
     | unfold pseudoClass | unfold pseudoElement];
    repeat match goal with
           | |- context [if ?b then _ else _] => destruct b
           end;
    intros H; inversion H; subst; cbn; auto.
Qed.

Lemma start_value (p : part) (v : string) : value (start p v) = token p v.
Proof. now destruct p. Qed.

Lemma start_elem (p : part) (v : string) : elem (start p v) = is_element p.
Proof. now destruct p. Qed.

(** The flag of a built fragment is set exactly for a chain of calls on
    [builder.element(...)]. *)
Lemma run_elem (s : Script.t) :
  forall f, run s = Normal f -> elem f = started_by_element s.
Proof.
  induction s as [p v | s IH p v | s1 IH1 op s2 IH2]; cbn [run started_by_element]; intros f H.
  - inversion H. apply start_elem.
  - destruct (run s) as [g|e]; cbn [cbind] in H; [|discriminate].
    apply append_Normal in H as [_ ->]. now apply IH.
  - destruct (run s1) as [g1|e]; cbn [cbind] in H; [|discriminate].
    destruct (run s2) as [g2|e]; cbn [cbind] in H; [|discriminate].
    now inversion H.
Qed.

Lemma includes_monotone (n : string) : monotone (fun s => includes s n).
Proof. intros a b H; split; [now apply includes_app_l | now apply includes_app_r]. Qed.

Lemma orb_monotone (t1 t2 : string -> bool) :
  monotone t1 -> monotone t2 -> monotone (fun s => t1 s || t2 s).
Proof.
  intros M1 M2 a b H. apply orb_true_iff in H as [H|H].
  - destruct (M1 a b H) as [-> ->]. now split.
  - destruct (M2 a b H) as [-> ->]. split; apply orb_true_r.
Qed.

(** A segment whose token passes a monotone test leaves its mark in the
    text of every fragment built after it. *)
Lemma run_has (q : part -> bool) (test : string -> bool) :
  monotone test ->
  (forall p v, q p = true -> test (token p v) = true) ->
  forall s f, run s = Normal f -> has q s = true -> test (value f) = true.
Proof.
  intros M Hq.
  induction s as [p v | s IH p v | s1 IH1 op s2 IH2]; cbn [run has]; intros f H Hs.
  - inversion H. rewrite start_value. now apply Hq.
  - destruct (run s) as [g|e]; cbn [cbind] in H; [|discriminate].
    apply append_Normal in H as [-> _].
    apply orb_true_iff in Hs as [Hs|Hs].
    + apply (M _ (token p v)). now apply IH.
    + apply (M _ (value g)). now apply Hq.
  - destruct (run s1) as [g1|e]; cbn [cbind] in H; [|discriminate].
    destruct (run s2) as [g2|e]; cbn [cbind] in H; [|discriminate].
    inversion H; subst f; clear H. cbn [value cssSelectorBuilder.combine stringify].
    apply orb_true_iff in Hs as [Hs|Hs].
    + apply (M (value g1)). now apply IH1.
    + apply (M _ (value g1)), (M _ " "), (M _ op), (M _ " "). now apply IH2.
Qed.

Lemma pseudoElement_mark (s : Script.t) (f : CssClass.t) :
  run s = Normal f -> has is_pseudoElement s = true -> includes (value f) "::" = true.
Proof.
  apply (run_has is_pseudoElement (fun t => includes t "::")).
  - apply includes_monotone.
  - intros [] v E; try discriminate.
    apply includes_prefix. exact (prefix_self_app "::" v).
Qed.

Lemma after_class_mark (s : Script.t) (f : CssClass.t) :
  run s = Normal f -> has after_class s = true ->
  includes (value f) "[" || includes (value f) ":" = true.
Proof.
  apply (run_has after_class (fun t => includes t "[" || includes t ":")).
  - apply orb_monotone; apply includes_monotone.
  - intros [] v E; try discriminate; apply orb_true_iff.
    + left. apply includes_prefix. exact (prefix_self_app "[" (v ++ "]")).
    + right. apply includes_prefix. exact (prefix_self_app ":" v).
    + right. apply includes_colons, includes_prefix. exact (prefix_self_app "::" v).
Qed.

(** When no segment comes after a class in the prescribed order and no
    string of the script contains the one-character needle, the text does
    not contain it either. *)
Lemma run_free (c : ascii) (s : Script.t) :
  (forall p v, after_class p = false -> free_of (String c "") v ->
               free_of (String c "") (token p v)) ->
  free_of (String c "") " " ->
  forall f, run s = Normal f -> has after_class s = false ->
  Forall (free_of (String c "")) (strings s) -> free_of (String c "") (value f).
Proof.
  intros Htok Hsp. unfold free_of in *.
  induction s as [p v | s IH p v | s1 IH1 op s2 IH2];
    cbn [run has strings]; intros f H Hs Hf.
  - inversion H. rewrite start_value. inversion Hf; subst. now apply Htok.
  - destruct (run s) as [g|e]; cbn [cbind] in H; [|discriminate].
    apply append_Normal in H as [-> _].
    apply orb_false_iff in Hs as [Hs Hp].
    apply Forall_app in Hf as [Hf Hv]. inversion Hv; subst.
    rewrite includes_char_app, (IH g), Htok; auto.
  - destruct (run s1) as [g1|e]; cbn [cbind] in H; [|discriminate].
    destruct (run s2) as [g2|e]; cbn [cbind] in H; [|discriminate].
    inversion H; subst f; clear H. cbn [value cssSelectorBuilder.combine stringify].
    apply orb_false_iff in Hs as [Hs1 Hs2].
    apply Forall_app in Hf as [Hf1 Hf2]. inversion Hf2; subst.
    unfold stringify.
    rewrite !includes_char_app, (IH1 g1), (IH2 g2), Hsp by auto.
    cbn. now rewrite orb_false_r.
Qed.

Lemma token_free_bracket (p : part) (v : string) :
  after_class p = false -> free_of "[" v -> free_of "[" (token p v).
Proof.
  unfold free_of. destruct p; intros E Hv; try discriminate; cbn [token];
    [assumption | |]; now rewrite includes_char_app, Hv.
Qed.

Lemma token_free_colon (p : part) (v : string) :
  after_class p = false -> free_of ":" v -> free_of ":" (token p v).
Proof.
  unfold free_of. destruct p; intros E Hv; try discriminate; cbn [token];
    [assumption | |]; now rewrite includes_char_app, Hv.
Qed.

(** Through the facade no call of [element] on a fragment returns: a built
    fragment has the flag set or a text that is not empty. *)
Lemma run_elem_or_text (s : Script.t) :
  forall f, run s = Normal f -> elem f = true \/ truthy (value f) = true.
Proof.
  induction s as [p v | s IH p v | s1 IH1 op s2 IH2]; cbn [run]; intros f H.
  - inversion H. destruct p; cbn; auto.
  - destruct (run s) as [g|e]; cbn [cbind] in H; [|discriminate].
    apply append_Normal in H as [Hv He]. rewrite Hv, He.
    destruct (IH g eq_refl) as [Hg|Hg]; [now left | right].
    destruct (value g); [discriminate | reflexivity].
  - destruct (run s1) as [g1|e]; cbn [cbind] in H; [|discriminate].
    destruct (run s2) as [g2|e]; cbn [cbind] in H; [|discriminate].
    inversion H. right. cbn [value cssSelectorBuilder.combine].
    now apply truthy_app_r.
Qed.

Lemma element_throws (s : Script.t) (f : CssClass.t) (v : string) :
  run s = Normal f ->
  CssClass.element f v = Throw DuplicateSegmentError \/
  CssClass.element f v = Throw SegmentOrderError.
Proof.
  intros H. unfold CssClass.element.
  destruct (run_elem_or_text s f H) as [E|E].
  - rewrite E. now left.
  - destruct (elem f); [now left | rewrite E; now right].
Qed.

(** C2, counterexample: the fragment of [builder.pseudoElement('after')]
    contains a pseudo-element segment, and appending a tag to it fails with
    the ordering error, which is not the duplicate error. *)
Lemma element_after_pseudoElement_starter :
  run (Start PseudoElement "after") = Normal (cssSelectorBuilder.pseudoElement "after") /\
  has is_pseudoElement (Start PseudoElement "after") = true /\
  CssClass.element (cssSelectorBuilder.pseudoElement "after") "div"
    = Throw SegmentOrderError /\
  CssClass.element (cssSelectorBuilder.pseudoElement "after") "div"
    <> Throw DuplicateSegmentError.
Proof. repeat split. discriminate. Qed.

(** C2, amended: appending a tag to a fragment that contains a
    pseudo-element segment always fails; the flag [elem] records the tag
    starter only, so the failure is the duplicate error exactly when the
    chain was started by [builder.element], and the ordering error (text
    already present) otherwise, as for a fragment made by the pseudo-element
    starter. *)
Theorem element_after_pseudoElement (s : Script.t) (f : CssClass.t) (v : string)
    (Hrun : run s = Normal f) (Hpe : has is_pseudoElement s = true) :
  elem f = started_by_element s /\
  CssClass.element f v =
    Throw (if started_by_element s then DuplicateSegmentError else SegmentOrderError).
Proof.
  pose proof (run_elem _ _ Hrun) as He. split; [exact He|].
  unfold CssClass.element. rewrite He.
  destruct (started_by_element s); [reflexivity|].
  rewrite (includes_nonempty _ "::"); [reflexivity | | discriminate].
  now apply (pseudoElement_mark s).
Qed.

Lemma element_after_pseudoElement_witness :
  CssClass.element (cssSelectorBuilder.pseudoElement "after") "div"
    = Throw SegmentOrderError.
Proof.
  exact (proj2 (element_after_pseudoElement (Start PseudoElement "after")
                  (cssSelectorBuilder.pseudoElement "after") "div"
                  eq_refl eq_refl)).
Defined.

(** C3, counterexample: [builder.class('a:b')] is built from one class
    segment only, and appending a class to it fails with the ordering
    error. *)
Lemma class_after_class_with_colon :
  run (Start Class "a:b") = Normal (cssSelectorBuilder.class "a:b") /\
  has after_class (Start Class "a:b") = false /\
  CssClass.class (cssSelectorBuilder.class "a:b") "c" = Throw SegmentOrderError.
Proof. repeat split. Qed.

(** C3, amended: appending a class fails with the ordering error if and
    only if the accumulated text contains the character '[' or ':', and
    never with the duplicate error.  It fails whenever an attribute,
    pseudo-class or pseudo-element segment is present, and it succeeds, with
    '.' and the name appended, on a fragment built only from tag, id and
    class segments when no string given to the builder contains '[' or
    ':'. *)
Theorem class_order_error (s : Script.t) (f : CssClass.t) (v : string)
    (Hrun : run s = Normal f) :
  (CssClass.class f v = Throw SegmentOrderError <->
   includes (value f) "[" || includes (value f) ":" = true) /\
  CssClass.class f v <> Throw DuplicateSegmentError /\
  (has after_class s = true -> CssClass.class f v = Throw SegmentOrderError) /\
  (has after_class s = false ->
   Forall (fun t => free_of "[" t /\ free_of ":" t) (strings s) ->
   CssClass.class f v = Normal (CssClass.new (value f ++ "." ++ v) (elem f))).
Proof.
  assert (Hiff : CssClass.class f v = Throw SegmentOrderError <->
                 includes (value f) "[" || includes (value f) ":" = true).
  { unfold CssClass.class. rewrite <- orb_assoc, colon_tests.
    destruct (includes (value f) "[" || includes (value f) ":"); split;
      auto; discriminate. }
  split; [exact Hiff|]. split; [|split].
  - unfold CssClass.class.
    destruct (includes (value f) "[" || includes (value f) ":"
              || includes (value f) "::"); [|discriminate].
    intros H. apply errors_differ.
    unfold DuplicateSegmentError, SegmentOrderError in *. congruence.
  - intros Hs. apply Hiff. now apply (after_class_mark s).
  - intros Hs Hf. unfold CssClass.class. rewrite <- orb_assoc, colon_tests.
    assert (H1 : free_of "[" (value f)).
    { apply (run_free "[" s token_free_bracket eq_refl f Hrun Hs).
      eapply Forall_impl; [|exact Hf]. now intros t [? _]. }
    assert (H2 : free_of ":" (value f)).
    { apply (run_free ":" s token_free_colon eq_refl f Hrun Hs).
      eapply Forall_impl; [|exact Hf]. now intros t [_ ?]. }
    unfold free_of in H1, H2. now rewrite H1, H2.
Qed.

Lemma class_order_error_witness :
  CssClass.class (CssClass.new "div#main.a" true) "b"
    = Normal (CssClass.new "div#main.a.b" true).
Proof.
  refine (proj2 (proj2 (proj2
    (class_order_error (Append (Append (Start Element "div") Id "main") Class "a")
       (CssClass.new "div#main.a" true) "b" eq_refl))) eq_refl _).
  repeat constructor.
Defined.

(** C4: for each of the four combinators, [combine] renders as the left
    rendering, a space, the operator, a space and the right rendering; the
    descendant combinator puts three spaces between the two renderings, and
    [combine(element('div').id('main'), '+', element('p'))] renders as
    "div#main + p". *)
Theorem combine_renders (f1 f2 : CssClass.t) (op : string)
    (Hop : In op cssSelectorBuilder.combinators) :
  stringify (cssSelectorBuilder.combine f1 op f2)
    = stringify f1 ++ " " ++ op ++ " " ++ stringify f2 /\
  stringify (cssSelectorBuilder.combine f1 " " f2)
    = stringify f1 ++ "   " ++ stringify f2 /\
  cbind (run (Combine (Append (Start Element "div") Id "main") "+" (Start Element "p")))
        (fun f => Normal (stringify f))
    = Normal "div#main + p".
Proof. repeat split. Qed.

Lemma combine_renders_witness :
  stringify (cssSelectorBuilder.combine
               (CssClass.new "tr:nth-of-type(even)" true) " "
               (CssClass.new "td:nth-of-type(even)" true))
    = "tr:nth-of-type(even)   td:nth-of-type(even)".
Proof.
  exact (proj1 (combine_renders (CssClass.new "tr:nth-of-type(even)" true)
                  (CssClass.new "td:nth-of-type(even)" true) " "
                  (or_introl eq_refl))).
Defined.


(** C6: a fragment obtained by calls chained on [builder.element(...)],
    the one starter that sets the flag, has the flag set, and appending a
    tag to it fails with the duplicate error. *)
Theorem second_element_fails (s : Script.t) (f : CssClass.t) (v : string)
    (Hrun : run s = Normal f) (Hstart : started_by_element s = true) :
  elem f = true /\
  CssClass.element f v = Throw DuplicateSegmentError /\
  (forall p w, elem (start p w) = true <-> p = Element).
Proof.
  pose proof (run_elem _ _ Hrun) as He. rewrite Hstart in He.
  split; [exact He|]. split.
  - unfold CssClass.element. now rewrite He.
  - intros p w. rewrite start_elem. destruct p; cbn; split; intros; congruence.
Qed.

Lemma second_element_fails_witness :
  CssClass.element (CssClass.new "div#main.container" true) "span"
    = Throw DuplicateSegmentError.
Proof.
  exact (proj1 (proj2 (second_element_fails
    (Append (Append (Start Element "div") Id "main") Class "container")
    (CssClass.new "div#main.container" true) "span" eq_refl eq_refl))).
Defined.

(** C9: [combine] of two built fragments returns a fragment, whatever the
    operator string; the flag of the result is unset, whatever the operands
    contain, and appending a tag to the result fails with the ordering
    error, not with the duplicate error. *)
Theorem combine_never_fails (s1 s2 : Script.t) (f1 f2 : CssClass.t) (op v : string)
    (Hrun1 : run s1 = Normal f1) (Hrun2 : run s2 = Normal f2) :
  run (Combine s1 op s2) = Normal (cssSelectorBuilder.combine f1 op f2) /\
  elem (cssSelectorBuilder.combine f1 op f2) = false /\
  CssClass.element (cssSelectorBuilder.combine f1 op f2) v = Throw SegmentOrderError /\
  CssClass.element (cssSelectorBuilder.combine f1 op f2) v <> Throw DuplicateSegmentError.
Proof.
  assert (E : CssClass.element (cssSelectorBuilder.combine f1 op f2) v
              = Throw SegmentOrderError).
  { unfold CssClass.element. cbn [elem value cssSelectorBuilder.combine].
    rewrite truthy_app_r; [reflexivity | reflexivity]. }
  split; [cbn [run]; now rewrite Hrun1, Hrun2|].
  split; [reflexivity|]. split; [exact E|].
  rewrite E. intros H. apply errors_differ. congruence.
Qed.

Lemma combine_never_fails_witness :
  run (Combine (Start Element "div") "then" (Start Element "p"))
    = Normal (CssClass.new "div then p" false) /\
  CssClass.element (CssClass.new "div then p" false) "span" = Throw SegmentOrderError.
Proof.
  pose proof (combine_never_fails (Start Element "div") (Start Element "p")
                (CssClass.new "div" true) (CssClass.new "p" true) "then" "span"
                eq_refl eq_refl) as (H1 & _ & H3 & _).
  exact (conj H1 H3).
Defined.

(** C10: the fragment of [builder.element('a#b')] has no id segment, and
    appending an id to it fails with the duplicate error; so does the
    fragment of [builder.class('a#b')], where the search for '#' comes
    before the ordering test that the '.' would fail. *)
Theorem id_false_duplicate :
  has is_id (Start Element "a#b") = false /\
  run (Start Element "a#b") = Normal (cssSelectorBuilder.element "a#b") /\
  CssClass.id (cssSelectorBuilder.element "a#b") "main" = Throw DuplicateSegmentError /\
  has is_id (Start Class "a#b") = false /\
  run (Start Class "a#b") = Normal (cssSelectorBuilder.class "a#b") /\
  CssClass.id (cssSelectorBuilder.class "a#b") "main" = Throw DuplicateSegmentError /\
  DuplicateSegmentError <> SegmentOrderError.
Proof. repeat split. exact errors_differ. Qed.

End CssFacts.

(** ** The selector builder over the store *)

Module StoreFacts.
Import Store.

(** A method called on a stored object does what the method on its fields
    does, and stores the fragment it returns at the next location. *)
Lemma method_agrees (p : Script.part) (this : loc) (val : string) (h : store) :
  method p this val h =
  match nth_error h this with
  | None => (Throw TypeError, h)
  | Some o =>
      match Script.append p o val with
      | Normal o' => (Normal (List.length h), (h ++ [o'])%list)
      | Throw e => (Throw e, h)
      end
  end.
Proof.
  destruct p; cbn [method Script.append];
    [unfold element, CssClass.element | unfold id, CssClass.id
     | unfold class, CssClass.class | unfold attr, CssClass.attr
     | unfold pseudoClass, CssClass.pseudoClass
     | unfold pseudoElement, CssClass.pseudoElement];
    unfold bind, load; destruct (nth_error h this) as [o|]; try reflexivity;
    repeat match goal with
           | |- context [if ?b then _ else _] => destruct b
           end; reflexivity.
Qed.

Lemma combine_agrees (l1 l2 : loc) (op : string) (h : store) :
  combine l1 op l2 h =
  match nth_error h l1, nth_error h l2 with
  | Some o1, Some o2 =>
      (Normal (List.length h), (h ++ [cssSelectorBuilder.combine o1 op o2])%list)
  | _, _ => (Throw TypeError, h)
  end.
Proof.
  unfold combine, stringify, bind, load, ret.
  destruct (nth_error h l1); [|reflexivity].
  destruct (nth_error h l2); reflexivity.
Qed.

(** A call either allocates one object at the end of the store and returns
    its location, or throws and leaves the store as it was. *)
Lemma exec_outcome (c : call) (h : store) :
  (exists o, exec c h = (Normal (List.length h), (h ++ [o])%list)) \/
  (exists e, exec c h = (Throw e, h)).
Proof.
  destruct c as [p this val | l1 op l2]; cbn [exec].
  - rewrite method_agrees. destruct (nth_error h this) as [o|]; [|right; eauto].
    destruct (Script.append p o val); [left | right]; eauto.
  - rewrite combine_agrees.
    destruct (nth_error h l1); [|right; eauto].
    destruct (nth_error h l2); [left | right]; eauto.
Qed.

(** C1: a call of a chaining method or of [combine] leaves every object of
    the store as it was, so every fragment made before renders the same
    string after the call; a call that returns gives a location that did
    not exist before, and a call that throws leaves the store unchanged. *)
Theorem non_mutating (c : call) (h : store) (l : loc) (Hl : l < List.length h) :
  nth_error (snd (exec c h)) l = nth_error h l /\
  render (snd (exec c h)) l = render h l /\
  match fst (exec c h) with
  | Normal l' =>
      nth_error h l' = None /\
      exists o, snd (exec c h) = (h ++ [o])%list /\ nth_error (snd (exec c h)) l' = Some o
  | Throw _ => snd (exec c h) = h
  end.
Proof.
  destruct (exec_outcome c h) as [[o E] | [e E]]; rewrite E; cbn [fst snd].
  - assert (A : nth_error (h ++ [o]) l = nth_error h l) by now apply nth_error_app1.
    split; [exact A|]. split.
    + unfold render, stringify, bind, load, ret. rewrite A.
      now destruct (nth_error h l).
    + split; [now apply nth_error_None|].
      exists o. split; [reflexivity|].
      now rewrite nth_error_app2, Nat.sub_diag.
  - repeat split.
Qed.

Lemma non_mutating_witness :
  render (snd (exec (Method Script.Class 0 "container") [CssClass.new "#main" false])) 0
    = Normal "#main" /\
  snd (exec (Method Script.Element 0 "div") [CssClass.new "#main" false])
    = [CssClass.new "#main" false].
Proof.
  split.
  - exact (proj1 (proj2 (non_mutating (Method Script.Class 0 "container")
                           [CssClass.new "#main" false] 0 (le_n 1)))).
  - exact (proj2 (proj2 (non_mutating (Method Script.Element 0 "div")
                           [CssClass.new "#main" false] 0 (le_n 1)))).
Defined.

End StoreFacts.

(** ** Rectangle *)

Module RectangleFacts.
Import Rectangle.

(** C8: the constructor stores its two arguments in [width] and [height],
    and [getArea] of the new object is the product of the height by the
    width. *)
Theorem constructor_fields_and_area {number : Type}
    (mul : number -> number -> number) (w h : number) :
  width (new w h) = w /\
  height (new w h) = h /\
  getArea mul (new w h) = mul h w.
Proof. repeat split. Qed.

Example rectangle_10_20 :
  width (new 10%Z 20%Z) = 10%Z /\ height (new 10%Z 20%Z) = 20%Z /\
  getArea Z.mul (new 10%Z 20%Z) = 200%Z.
Proof. repeat split. Qed.

End RectangleFacts.

(** ** getJSON and fromJSON *)

Module JsonFacts.
Import Json.

Lemma append_empty_r (s : string) : s ++ "" = s.
Proof. induction s as [|c s IH]; cbn; [reflexivity | now rewrite IH]. Qed.

Lemma append_assoc (a b c : string) : (a ++ b) ++ c = a ++ b ++ c.
Proof. induction a as [|x a IH]; cbn; [reflexivity | now rewrite IH]. Qed.

Lemma length_append (a b : string) :
  String.length (a ++ b) = String.length a + String.length b.
Proof. induction a as [|x a IH]; cbn; [reflexivity | now rewrite IH]. Qed.

(** *** Reading back what QuoteJSONString writes *)

Lemma string_body_quote_char (c : ascii) (x : string) :
  string_body (quote_char c ++ x) = pmap (String c) (string_body x).
Proof.
  destruct c as [[] [] [] [] [] [] [] []]; reflexivity.
Qed.

Lemma string_body_quote (s rest : string) :
  string_body (quote_body s ++ String "034" rest) = Parsed s rest.
Proof.
  induction s as [|c s IH]; [reflexivity|].
  cbn [quote_body]. now rewrite append_assoc, string_body_quote_char, IH.
Qed.

(** *** Delimiters *)

Lemma delimited_not_number (c : ascii) (r : string) :
  delimited (String c r) = true -> number_char c = false.
Proof.
  cbn. destruct c as [[] [] [] [] [] [] [] []]; cbn; congruence.
Qed.

Lemma skip_ws_here (c : ascii) (r : string) :
  is_ws c = false -> skip_ws (String c r) = String c r.
Proof. intros H; cbn. now rewrite H. Qed.

Lemma expect_here (c : ascii) (r : string) :
  is_ws c = false -> expect c (String c r) = Some r.
Proof. intros H. unfold expect. now rewrite skip_ws_here, Ascii.eqb_refl. Qed.

Lemma expect_other (c d : ascii) (r : string) :
  is_ws d = false -> Ascii.eqb d c = false -> expect c (String d r) = None.
Proof. intros H E. unfold expect. now rewrite skip_ws_here, E. Qed.

(** *** Number tokens *)

Lemma span_all (p : ascii -> bool) (tok rest : string) :
  all_chars p tok = true ->
  match rest with String c _ => p c = false | EmptyString => True end ->
  span p (tok ++ rest) = (tok, rest).
Proof.
  intros Ht Hr. induction tok as [|c tok IH].
  - destruct rest as [|c r]; [reflexivity|]. cbn. now rewrite Hr.
  - cbn in Ht |- *. apply andb_true_iff in Ht as [-> Ht]. now rewrite IH.
Qed.

(** A number token starts with a minus sign or a digit. *)
Lemma number_grammar_start (tok : string) :
  number_grammar tok = true ->
  exists c r, tok = String c r /\ Ascii.eqb c "-" || is_digit c = true.
Proof.
  unfold number_grammar, int_part. destruct tok as [|c r]; [discriminate|].
  intros H. exists c, r. split; [reflexivity|].
  destruct (Ascii.eqb c "-") eqn:E; [reflexivity|]. cbn [orb].
  destruct (Ascii.eqb c "0") eqn:E0.
  - apply Ascii.eqb_eq in E0. now subst c.
  - unfold digits1 in H. destruct (is_digit c); [reflexivity | discriminate].
Qed.

(** The tests that come before the one for a number fail on its start. *)
Lemma number_start_tests (c : ascii) :
  Ascii.eqb c "-" || is_digit c = true ->
  is_ws c = false /\ Ascii.eqb c "{" = false /\ Ascii.eqb c "[" = false /\
  Ascii.eqb c "034" = false /\ Ascii.eqb c "]" = false /\ Ascii.eqb c "}" = false.
Proof.
  destruct c as [[] [] [] [] [] [] [] []]; cbn; intros H;
    repeat split; congruence.
Qed.

(** *** The round trip through the host *)

Section RoundTrip.
Context {number : Type}.
Variable isFinite : number -> bool.
Variable Number_toString : number -> string.
Variable StringToNumber : string -> number.

Local Abbreviation value := (Json.value number).
Local Abbreviation ser := (json_text isFinite Number_toString).
Local Abbreviation read := (json_value StringToNumber).
Local Abbreviation plain := (Json.plain isFinite Number_toString StringToNumber).
Local Abbreviation reads_back := (Json.reads_back isFinite Number_toString StringToNumber).
Local Abbreviation json_number := (Json.json_number isFinite Number_toString StringToNumber).

(** Induction on a value, with the property for the elements of an array
    and for the property values of an object. *)
Lemma value_ind (P : value -> Prop)
    (HNull : P Null) (HBool : forall b, P (Bool b))
    (HNumber : forall n, P (Number n)) (HStr : forall s, P (Str s))
    (HArray : forall proto items, Forall P items -> P (Array proto items))
    (HObject : forall proto props,
        Forall (fun kv => P (snd kv)) props -> P (Object proto props)) :
  forall v, P v.
Proof.
  fix IH 1. intros [ | b | n | s | proto items | proto props].
  - exact HNull.
  - apply HBool.
  - apply HNumber.
  - apply HStr.
  - apply HArray. induction items as [|x items IHitems]; constructor.
    + apply IH.
    + exact IHitems.
  - apply HObject. induction props as [|[k x] props IHprops]; constructor.
    + apply IH.
    + exact IHprops.
Qed.

Lemma number_token_round_trip (n : number) (rest : string) :
  json_number n -> delimited rest = true ->
  number_token StringToNumber (Number_toString n ++ rest) = Parsed n rest.
Proof.
  intros (_ & Hchars & Hgrammar & Hback) Hrest. unfold number_token.
  rewrite (span_all number_char _ _ Hchars).
  - now rewrite Hgrammar, Hback.
  - destruct rest as [|c r]; [exact I | now apply (delimited_not_number c r)].
Qed.

(** What [JSON.stringify] writes for plain data starts with a character
    that is no white space, no closing bracket and no closing brace. *)
Lemma ser_start (v : value) :
  plain v ->
  exists c r, ser v = String c r /\ is_ws c = false /\
              Ascii.eqb c "]" = false /\ Ascii.eqb c "}" = false.
Proof.
  destruct v as [ | [|] | n | s | proto items | proto props]; cbn [Json.plain];
    intros Hv; try (eexists _, _; repeat split; reflexivity).
  destruct Hv as (Hfin & _ & Hgrammar & _).
  destruct (number_grammar_start _ Hgrammar) as (c & r & E & Hc).
  destruct (number_start_tests c Hc) as (? & _ & _ & _ & ? & ?).
  exists c, r. cbn. now rewrite Hfin.
Qed.

Lemma elements_round_trip (items : list value) :
  Forall reads_back items ->
  fold_right (fun x r => plain x /\ r) True items ->
  items <> [] ->
  forall fuel rest,
    String.length (String.concat "," (List.map ser items)) + 1 <= fuel ->
    json_elements StringToNumber fuel
      (String.concat "," (List.map ser items) ++ String "]" rest)
    = Parsed items rest.
Proof.
  induction 1 as [|x xs Hx Hxs IH]; [congruence|].
  intros [Px Pxs] _ fuel rest Hfuel.
  destruct fuel as [|fuel]; [lia|].
  destruct xs as [|y ys].
  - cbn [List.map String.concat] in *. cbn [json_elements].
    rewrite (Hx Px) by (reflexivity || lia).
    rewrite expect_other, expect_here by reflexivity. reflexivity.
  - change (String.concat "," (List.map ser (x :: y :: ys)))
      with (ser x ++ String "," (String.concat "," (List.map ser (y :: ys)))) in *.
    rewrite length_append in Hfuel. cbn [String.length] in Hfuel.
    rewrite append_assoc. cbn [append json_elements].
    rewrite (Hx Px) by (reflexivity || lia).
    rewrite expect_here by reflexivity.
    rewrite IH by (assumption || discriminate || lia). reflexivity.
Qed.

Lemma members_round_trip (props : list (string * value)) :
  Forall (fun kv => reads_back (snd kv)) props ->
  fold_right (fun kv r => plain (snd kv) /\ r) True props ->
  props <> [] ->
  forall fuel rest,
    String.length
      (String.concat ","
         (List.map (fun kv => QuoteJSONString (fst kv) ++ ":" ++ ser (snd kv)) props))
      + 1 <= fuel ->
    json_members StringToNumber fuel
      (String.concat ","
         (List.map (fun kv => QuoteJSONString (fst kv) ++ ":" ++ ser (snd kv)) props)
       ++ String "}" rest)
    = Parsed props rest.
Proof.
  induction 1 as [|[k x] xs Hx Hxs IH]; [congruence|].
  intros [Px Pxs] _ fuel rest Hfuel.
  destruct fuel as [|fuel]; [lia|].
  cbn [fst snd] in Hx, Px.
  assert (Hmember : forall tail,
    (QuoteJSONString k ++ ":" ++ ser x) ++ tail
    = String "034" (quote_body k ++ String "034" (String ":" (ser x ++ tail)))).
  { intros tail. unfold QuoteJSONString. cbn [append].
    now rewrite !append_assoc. }
  assert (Hlen : String.length (ser x) <
                 String.length (QuoteJSONString k ++ ":" ++ ser x)).
  { rewrite length_append. cbn. lia. }
  destruct xs as [|y ys].
  - cbn [List.map String.concat fst snd] in *.
    rewrite Hmember. cbn [json_members].
    rewrite expect_here, string_body_quote, expect_here by reflexivity.
    rewrite (Hx Px) by (reflexivity || lia).
    rewrite expect_other, expect_here by reflexivity. reflexivity.
  - set (member := fun kv : string * value =>
                     QuoteJSONString (fst kv) ++ ":" ++ ser (snd kv)) in *.
    change (String.concat "," (List.map member ((k, x) :: y :: ys)))
      with ((QuoteJSONString k ++ ":" ++ ser x)
              ++ String "," (String.concat "," (List.map member (y :: ys)))) in *.
    rewrite length_append in Hfuel. cbn [String.length] in Hfuel.
    rewrite append_assoc, Hmember. cbn [append json_members].
    rewrite expect_here, string_body_quote, expect_here by reflexivity.
    rewrite (Hx Px) by (reflexivity || lia).
    rewrite expect_here by reflexivity.
    rewrite IH by (assumption || discriminate || lia). reflexivity.
Qed.

Lemma value_round_trip (v : value) : reads_back v.
Proof.
  induction v as [ | b | n | s | proto items IH | proto props IH] using value_ind;
    intros Pv fuel rest Hfuel Hrest.
  - destruct fuel as [|fuel]; [cbn in Hfuel; lia | reflexivity].
  - destruct fuel as [|fuel]; [destruct b; cbn in Hfuel; lia|].
    now destruct b.
  - destruct (ser_start (Number n) Pv) as (c & r & E & Hws & _).
    rewrite E in *. destruct fuel as [|fuel]; [cbn in Hfuel; lia|].
    cbn [Json.plain] in Pv. pose proof Pv as (Hfin & _ & Hgrammar & _).
    cbn [json_text] in E. rewrite Hfin in E.
    destruct (number_grammar_start _ Hgrammar) as (c' & r' & E' & Hc).
    rewrite E in E'. injection E' as <- <-.
    destruct (number_start_tests c Hc) as (_ & E1 & E2 & E3 & _).
    cbn [append json_value]. rewrite skip_ws_here by assumption.
    rewrite E1, E2, E3, Hc.
    change (String c (r ++ rest)) with (String c r ++ rest).
    rewrite <- E, number_token_round_trip by assumption. reflexivity.
  - destruct fuel as [|fuel]; [cbn in Hfuel; lia|].
    cbn [json_text]. unfold QuoteJSONString.
    cbn [append json_value skip_ws is_ws Ascii.eqb orb].
    cbn. rewrite append_assoc. cbn [append].
    now rewrite string_body_quote.
  - destruct Pv as [-> Pitems].
    destruct fuel as [|fuel]; [cbn in Hfuel; lia|].
    cbn [json_text] in *.
    destruct items as [|x xs].
    + reflexivity.
    + set (text := String.concat "," (List.map ser (x :: xs))) in *.
      cbn [append String.length] in Hfuel. rewrite length_append in Hfuel.
      cbn [String.length] in Hfuel. cbn [append]. rewrite append_assoc. cbn [append].
      assert (Hstart : expect "]" (text ++ String "]" rest) = None).
      { destruct Pitems as [Px _].
        destruct (ser_start x Px) as (c & r & E & Hws & Hc & _).
        assert (Et : exists t, text = String c t).
        { subst text. cbn [List.map]. destruct xs.
          - cbn [String.concat]. eauto.
          - change (String.concat "," (ser x :: List.map ser (v :: xs)))
              with (ser x ++ "," ++ String.concat "," (List.map ser (v :: xs))).
            rewrite E. cbn [append]. eauto. }
        destruct Et as [t ->]. cbn [append]. now apply expect_other. }
      cbn [json_value]. rewrite skip_ws_here by reflexivity.
      cbn [Ascii.eqb Bool.eqb]. cbn match. rewrite Hstart.
      subst text. rewrite (elements_round_trip (x :: xs));
        (assumption || discriminate || lia || reflexivity).
  - destruct Pv as (-> & Horder & Pprops).
    destruct fuel as [|fuel]; [cbn in Hfuel; lia|].
    cbn [json_text] in *.
    destruct props as [|[k x] xs].
    + reflexivity.
    + set (member := fun kv : string * value =>
                       QuoteJSONString (fst kv) ++ ":" ++ ser (snd kv)) in *.
      set (text := String.concat "," (List.map member ((k, x) :: xs))) in *.
      cbn [append String.length] in Hfuel. rewrite length_append in Hfuel.
      cbn [String.length] in Hfuel. cbn [append]. rewrite append_assoc. cbn [append].
      assert (Hstart : expect "}" (text ++ String "}" rest) = None).
      { assert (Et : exists t, text = String "034" t).
        { subst text. cbn [List.map]. destruct xs.
          - cbn [String.concat]. unfold member, QuoteJSONString. cbn. eauto.
          - change (String.concat "," (member (k, x) :: List.map member (p :: xs)))
              with (member (k, x) ++ "," ++ String.concat "," (List.map member (p :: xs))).
            unfold member at 1, QuoteJSONString. cbn. eauto. }
        destruct Et as [t ->]. cbn [append]. now apply expect_other. }
      cbn [json_value]. rewrite skip_ws_here by reflexivity.
      cbn [Ascii.eqb Bool.eqb]. cbn match. rewrite Hstart.
      subst text member. rewrite (members_round_trip ((k, x) :: xs));
        try (assumption || discriminate || lia).
      cbn [pmap]. now rewrite Horder.
Qed.

(** Where no toJSON method is found, SerializeJSONProperty writes the text
    of the value by its kind. *)
Lemma ser_plain (v : value) :
  plain v -> SerializeJSONProperty isFinite Number_toString v = ser v.
Proof.
  induction v as [ | b | n | s | proto items IH | proto props IH] using value_ind;
    intros Pv; try reflexivity.
  - destruct Pv as [-> Pitems]. cbn [SerializeJSONProperty json_text toJSON_result toJSON_of].
    do 2 f_equal. f_equal.
    induction IH as [|x xs Hx Hxs IHxs]; [reflexivity|].
    destruct Pitems as [Px Pxs]. cbn [List.map]. now rewrite (Hx Px), IHxs.
  - destruct Pv as (-> & _ & Pprops).
    cbn [SerializeJSONProperty json_text toJSON_result toJSON_of].
    replace (if has_own_property "toJSON" props then None else @None string)
      with (@None string) by now destruct (has_own_property "toJSON" props).
    do 2 f_equal. f_equal.
    induction IH as [|[k x] xs Hx Hxs IHxs]; [reflexivity|].
    destruct Pprops as [Px Pxs]. cbn [List.map fst snd] in *.
    now rewrite (Hx Px), IHxs.
Qed.

Lemma ser_as_literal (v : value) : ser (as_literal v) = ser v.
Proof. now destruct v. Qed.

(** The same for a value whose attributes are plain data, whatever its own
    prototype, when no toJSON method is found for it. *)
Lemma ser_plain_attributes (v : value) :
  Json.plain_attributes isFinite Number_toString StringToNumber v ->
  SerializeJSONProperty isFinite Number_toString v = ser (as_literal v).
Proof.
  intros [Pv Hto]. rewrite <- (ser_plain _ Pv).
  destruct v as [ | b | n | s | proto items | proto props]; try reflexivity.
  - cbn [toJSON_result] in Hto.
    cbn [as_literal SerializeJSONProperty toJSON_result toJSON_of]. now rewrite Hto.
  - cbn [toJSON_result] in Hto.
    cbn [as_literal SerializeJSONProperty toJSON_result toJSON_of]. rewrite Hto.
    now destruct (has_own_property "toJSON" props).
Qed.

Lemma JSON_parse_text (v : value) :
  plain v -> JSON_parse StringToNumber (ser v) = Some (Normal v).
Proof.
  intros Pv. unfold JSON_parse.
  pose proof (value_round_trip v Pv (2 * String.length (ser v) + 1) "") as H.
  rewrite append_empty_r in H. rewrite H by (reflexivity || lia). reflexivity.
Qed.

Lemma JSON_parse_stringify (v : value) :
  plain v ->
  JSON_parse StringToNumber (JSON_stringify isFinite Number_toString v) = Some (Normal v).
Proof.
  intros Pv. unfold JSON_stringify. rewrite (ser_plain v Pv). now apply JSON_parse_text.
Qed.

(** C7, amended: for every value but null whose attributes are plain data
    and for which no toJSON method is found, [fromJSON(proto, getJSON(value))]
    returns the value with the prototype [proto]: the value itself when
    [proto] is its prototype, and when it is a boolean, a number or a
    string.  Its properties and its elements are those of the original. *)
Theorem fromJSON_getJSON (v : value) (proto : prototype)
    (Hplain : Json.plain_attributes isFinite Number_toString StringToNumber v)
    (Hnot_null : v <> Null) :
  fromJSON StringToNumber proto (getJSON isFinite Number_toString v)
    = Some (Normal (with_prototype proto v)) /\
  properties (with_prototype proto v) = properties v /\
  elements (with_prototype proto v) = elements v /\
  (prototype_of v = Some proto \/ prototype_of v = None -> with_prototype proto v = v).
Proof.
  split; [|split; [|split]].
  - unfold fromJSON, getJSON, JSON_stringify.
    rewrite (ser_plain_attributes v Hplain), (JSON_parse_text _ (proj1 Hplain)).
    destruct v; try reflexivity. congruence.
  - now destruct v.
  - now destruct v.
  - destruct v; cbn; intros [H|H]; congruence.
Qed.

End RoundTrip.

(** C7, counterexamples.  Null is a value made of primitives: [getJSON]
    gives the text null, and [fromJSON] of that text throws a TypeError, from
    [Object.setPrototypeOf], whatever the capability set.  A number that is
    not finite is written as null and read back as null; the negative zero
    is written as the zero and read back as the zero.  An object whose
    capability set has a toJSON method is written as what the method
    returns, here a string, and read back as that string. *)
Lemma fromJSON_getJSON_fails :
  (IntegerHost.getJSON Null = "null" /\
   forall proto, IntegerHost.fromJSON proto (IntegerHost.getJSON Null)
                 = Some (Throw TypeError)) /\
  (SpecialHost.getJSON (Array Array_prototype [Number SpecialHost.NaN]) = "[null]" /\
   SpecialHost.fromJSON Array_prototype
       (SpecialHost.getJSON (Array Array_prototype [Number SpecialHost.NaN]))
     = Some (Normal (Array Array_prototype [Null])) /\
   elements (Array Array_prototype [@Null SpecialHost.number])
     <> elements (Array Array_prototype [Number SpecialHost.NaN])) /\
  (SpecialHost.getJSON (Array Array_prototype [Number SpecialHost.NegativeZero]) = "[0]" /\
   SpecialHost.fromJSON Array_prototype
       (SpecialHost.getJSON (Array Array_prototype [Number SpecialHost.NegativeZero]))
     = Some (Normal (Array Array_prototype [Number (SpecialHost.Int 0)])) /\
   elements (Array Array_prototype [Number (SpecialHost.Int 0)])
     <> elements (Array Array_prototype [Number SpecialHost.NegativeZero])) /\
  (IntegerHost.getJSON
       (Object (Prototype "Tag" (Some "t")) [("radius", Number 10%Z)])
     = String "034" ("t" ++ String "034" "") /\
   IntegerHost.fromJSON (Prototype "Tag" (Some "t"))
       (IntegerHost.getJSON
          (Object (Prototype "Tag" (Some "t")) [("radius", Number 10%Z)]))
     = Some (Normal (Str "t")) /\
   properties (@Str Z "t")
     <> properties (Object (Prototype "Tag" (Some "t")) [("radius", Number 10%Z)])).
Proof.
  repeat split; try reflexivity; discriminate.
Qed.

Lemma fromJSON_getJSON_witness :
  IntegerHost.getJSON (Object (Prototype "Circle" None) [("radius", Number 10%Z)])
    = "{" ++ JsString.dquote ++ "radius" ++ JsString.dquote ++ ":10}" /\
  IntegerHost.fromJSON (Prototype "Circle" None)
      (IntegerHost.getJSON (Object (Prototype "Circle" None) [("radius", Number 10%Z)]))
    = Some (Normal (Object (Prototype "Circle" None) [("radius", Number 10%Z)])).
Proof.
  split; [reflexivity|].
  refine (proj1 (fromJSON_getJSON IntegerHost.isFinite IntegerHost.Number_toString
                   IntegerHost.StringToNumber
                   (Object (Prototype "Circle" None) [("radius", Number 10%Z)])
                   (Prototype "Circle" None) _ _)).
  - repeat split.
  - discriminate.
Defined.

(** *** The fuel of [JSON_parse] is enough *)
















Section Fuel.
Context {number : Type}.
Variable StringToNumber : string -> number.








End Fuel.

End JsonFacts.

(** ** The order of the parts of a selector *)

Module OrderFacts.
Import JsString JsStringFacts CssClass Script Order CssFacts.

(** Splits the goal on every substring test that occurs in it. *)
Ltac split_tests :=
  repeat match goal with
         | |- context [includes ?a ?b] => destruct (includes a b) eqn:?
         end.

(** A part leaves its delimiter in the text of every fragment built after
    it. *)
Lemma kind_mark (q : part) (s : Script.t) (g : CssClass.t) :
  run s = Normal g -> has (same_kind q) s = true ->
  includes (value g) (mark q) = true.
Proof.
  apply (run_has (same_kind q) (fun t => includes t (mark q))).
  - apply includes_monotone.
  - intros p v E. apply includes_prefix.
    destruct q, p; try discriminate E; cbn [mark token].
    + apply prefix_nil.
    + exact (prefix_self_app "#" v).
    + exact (prefix_self_app "." v).
    + exact (prefix_self_app "[" (v ++ "]")).
    + exact (prefix_self_app ":" v).
    + exact (prefix_self_app "::" v).
Qed.

Lemma run_value_render (s : Script.t) :
  forall f, run s = Normal f -> value f = render s.
Proof.
  induction s as [p v | s IH p v | s1 IH1 op s2 IH2]; cbn [run render]; intros f H.
  - inversion H. apply start_value.
  - destruct (run s) as [g|e]; cbn [cbind] in H; [|discriminate].
    apply append_Normal in H as [H _]. now rewrite H, (IH g).
  - destruct (run s1) as [g1|e]; cbn [cbind] in H; [|discriminate].
    destruct (run s2) as [g2|e]; cbn [cbind] in H; [|discriminate].
    inversion H. cbn. unfold stringify. now rewrite (IH1 g1), (IH2 g2).
Qed.

(** X1: the text of an accepted script is the text of its tokens, one
    after the other, and of the operators of [combine] between spaces. *)
Theorem run_renders (s : Script.t) (f : CssClass.t) (Hrun : run s = Normal f) :
  stringify f = render s.
Proof. exact (run_value_render s f Hrun). Qed.

Lemma run_renders_witness :
  stringify (CssClass.new "div#main.container.draggable + table#data" false)
    = "div#main.container.draggable + table#data".
Proof.
  exact (run_renders
    (Combine (Append (Append (Append (Start Element "div") Id "main") Class "container")
                Class "draggable")
             "+" (Append (Start Element "table") Id "data"))
    (CssClass.new "div#main.container.draggable + table#data" false) eq_refl).
Defined.

(** X2: a call that returns comes in the prescribed order after every
    part that the fragment already has, the parts of the operands of
    [combine] included: no element, id or pseudo-element comes twice, and
    no part comes after a part of a later kind. *)
Theorem accepted_in_order (s : Script.t) (g f : CssClass.t) (q p : part) (v : string)
    (Hrun : run s = Normal g) (Hcall : append p g v = Normal f)
    (Hq : has (same_kind q) s = true) :
  may_follow q p = true.
Proof.
  destruct (may_follow q p) eqn:M; [reflexivity | exfalso].
  pose proof (kind_mark q s g Hrun Hq) as K.
  destruct p; cbn [append] in Hcall.
  - unfold CssClass.element in Hcall.
    destruct (run_elem_or_text s g Hrun) as [E|E]; rewrite E in Hcall;
      [discriminate | destruct (elem g); discriminate].
  - revert Hcall. unfold CssClass.id.
    destruct q; try discriminate M; cbn [mark] in K;
      try (apply includes_colons in K as K'); split_tests;
      intros Hcall; try discriminate Hcall; congruence.
  - revert Hcall. unfold CssClass.class.
    destruct q; try discriminate M; cbn [mark] in K;
      try (apply includes_colons in K as K'); split_tests;
      intros Hcall; try discriminate Hcall; congruence.
  - revert Hcall. unfold CssClass.attr.
    destruct q; try discriminate M; cbn [mark] in K;
      try (apply includes_colons in K as K'); split_tests;
      intros Hcall; try discriminate Hcall; congruence.
  - revert Hcall. unfold CssClass.pseudoClass.
    destruct q; try discriminate M; cbn [mark] in K; split_tests;
      intros Hcall; try discriminate Hcall; congruence.
  - revert Hcall. unfold CssClass.pseudoElement.
    destruct q; try discriminate M; cbn [mark] in K; split_tests;
      intros Hcall; try discriminate Hcall; congruence.
Qed.

Lemma accepted_in_order_witness : may_follow Id Class = true.
Proof.
  exact (accepted_in_order (Append (Start Element "div") Id "main")
           (CssClass.new "div#main" true) (CssClass.new "div#main.a" true)
           Id Class "a" eq_refl eq_refl eq_refl).
Defined.

(** X3: on a fragment that has an id, [id] throws the duplicate error; on
    a fragment that has a pseudo-element, [pseudoElement] throws the
    duplicate error. *)
Theorem duplicate_errors (s : Script.t) (g : CssClass.t) (v : string)
    (Hrun : run s = Normal g) :
  (has (same_kind Id) s = true -> CssClass.id g v = Throw DuplicateSegmentError) /\
  (has (same_kind PseudoElement) s = true ->
   CssClass.pseudoElement g v = Throw DuplicateSegmentError).
Proof.
  split; intros Hq; pose proof (kind_mark _ s g Hrun Hq) as K; cbn [mark] in K.
  - unfold CssClass.id. now rewrite K.
  - unfold CssClass.pseudoElement. now rewrite K.
Qed.

Lemma duplicate_errors_witness :
  CssClass.id (CssClass.new "div#main.a" true) "other" = Throw DuplicateSegmentError.
Proof.
  exact (proj1 (duplicate_errors
    (Append (Append (Start Element "div") Id "main") Class "a")
    (CssClass.new "div#main.a" true) "other" eq_refl) eq_refl).
Defined.

(** X4: the ordering error.  [attr] throws it on a fragment that has a
    pseudo-class or a pseudo-element, and [pseudoClass] on one that has a
    pseudo-element; [id] on a fragment that has a class, an attribute, a
    pseudo-class or a pseudo-element throws it when the text has no '#',
    and the duplicate error when it has one. *)
Theorem order_errors (s : Script.t) (g : CssClass.t) (v : string)
    (Hrun : run s = Normal g) :
  (has (same_kind PseudoClass) s = true \/ has (same_kind PseudoElement) s = true ->
   CssClass.attr g v = Throw SegmentOrderError) /\
  (has (same_kind PseudoElement) s = true ->
   CssClass.pseudoClass g v = Throw SegmentOrderError) /\
  (has after_id s = true ->
   CssClass.id g v =
     Throw (if includes (value g) "#" then DuplicateSegmentError
            else SegmentOrderError)).
Proof.
  split; [|split].
  - intros [Hq|Hq]; pose proof (kind_mark _ s g Hrun Hq) as K; cbn [mark] in K;
      unfold CssClass.attr.
    + now rewrite K.
    + rewrite K. now rewrite orb_true_r.
  - intros Hq. pose proof (kind_mark _ s g Hrun Hq) as K; cbn [mark] in K.
    unfold CssClass.pseudoClass. now rewrite K.
  - intros Hq. unfold CssClass.id.
    destruct (includes (value g) "#"); [reflexivity|].
    assert (K : includes (value g) "." || includes (value g) "["
                || includes (value g) ":" = true).
    { revert Hq. apply (run_has after_id
        (fun t => includes t "." || includes t "[" || includes t ":")); auto.
      - repeat apply orb_monotone; apply includes_monotone.
      - intros [] w E; try discriminate E; cbn [token].
        + now rewrite (includes_prefix _ "." (prefix_self_app "." w)).
        + rewrite (includes_prefix _ "[" (prefix_self_app "[" (w ++ "]"))).
          now rewrite orb_true_r.
        + rewrite (includes_prefix _ ":" (prefix_self_app ":" w)).
          now rewrite orb_true_r.
        + rewrite (includes_colons _ (includes_prefix _ "::" (prefix_self_app "::" w))).
          now rewrite orb_true_r. }
    now rewrite K.
Qed.

Lemma order_errors_witness :
  CssClass.attr (CssClass.new "a:focus" true) "href" = Throw SegmentOrderError /\
  CssClass.id (CssClass.new "a:focus" true) "main" = Throw SegmentOrderError.
Proof.
  pose proof (order_errors (Append (Start Element "a") PseudoClass "focus")
                (CssClass.new "a:focus" true)) as H.
  split.
  - exact (proj1 (H "href" eq_refl) (or_introl eq_refl)).
  - exact (proj2 (proj2 (H "main" eq_refl)) eq_refl).
Defined.

(** X5: through the facade a call of [element] on a fragment never
    returns: it throws the duplicate error when the chain was started by
    [builder.element], and the ordering error otherwise. *)
Theorem element_never_returns (s : Script.t) (g : CssClass.t) (v : string)
    (Hrun : run s = Normal g) :
  CssClass.element g v =
    Throw (if started_by_element s then DuplicateSegmentError else SegmentOrderError).
Proof.
  unfold CssClass.element. rewrite (run_elem s g Hrun).
  destruct (run_elem_or_text s g Hrun) as [E|E].
  - rewrite (run_elem s g Hrun) in E. now rewrite E.
  - rewrite E. now destruct (started_by_element s).
Qed.

Lemma element_never_returns_witness :
  CssClass.element (CssClass.new "#main.a" false) "div" = Throw SegmentOrderError.
Proof.
  exact (element_never_returns (Append (Start Id "main") Class "a")
           (CssClass.new "#main.a" false) "div" eq_refl).
Defined.

(** *** Every chain in the order, on admissible arguments, is accepted *)

Lemma free_app (c : ascii) (a b : string) :
  free_of (String c "") a -> free_of (String c "") b -> free_of (String c "") (a ++ b).
Proof. unfold free_of. intros Ha Hb. now rewrite includes_char_app, Ha, Hb. Qed.

Lemma free_head (c d : ascii) (t : string) :
  free_of (String c "") (String d t) -> c <> d /\ free_of (String c "") t.
Proof.
  unfold free_of. cbn [includes String.prefix].
  destruct (ascii_dec c d) as [->|N].
  - rewrite prefix_nil. discriminate.
  - intros H. now split.
Qed.

(** Two colons do not occur across a character that is no colon. *)
Lemma prefix_colons (d : ascii) (x : string) :
  String.prefix "::" (String d x) =
  if ascii_dec ":" d then String.prefix ":" x else false.
Proof. reflexivity. Qed.

Lemma prefix_colon (d : ascii) (x : string) :
  String.prefix ":" (String d x) = if ascii_dec ":" d then true else false.
Proof.
  change (String.prefix ":" (String d x))
    with (if ascii_dec ":" d then String.prefix "" x else false).
  destruct (ascii_dec ":" d); [apply prefix_nil | reflexivity].
Qed.

Lemma colons_across (c : ascii) (a b : string) :
  c <> ":"%char ->
  includes (a ++ String c b) "::" = includes a "::" || includes b "::".
Proof.
  intros N. induction a as [|d a IH].
  - change ("" ++ String c b) with (String c b).
    change (includes (String c b) "::")
      with (String.prefix "::" (String c b) || includes b "::").
    rewrite prefix_colons.
    destruct (ascii_dec ":" c) as [E|_]; [now subst c | reflexivity].
  - change (includes (String d a ++ String c b) "::")
      with (String.prefix "::" (String d (a ++ String c b))
            || includes (a ++ String c b) "::").
    change (includes (String d a) "::")
      with (String.prefix "::" (String d a) || includes a "::").
    rewrite IH, orb_assoc. f_equal. rewrite !prefix_colons.
    destruct (ascii_dec ":" d) as [_|_]; [|reflexivity].
    destruct a as [|e a].
    + change ("" ++ String c b) with (String c b). rewrite prefix_colon.
      destruct (ascii_dec ":" c) as [E|_]; [now subst c | reflexivity].
    + change (String e a ++ String c b) with (String e (a ++ String c b)).
      now rewrite !prefix_colon.
Qed.

Lemma free_colon_no_meet (t : string) : free_of ":" t -> no_colons_meet t.
Proof.
  unfold no_colons_meet. induction t as [|c t IH]; intros H; [reflexivity|].
  apply free_head in H as [N H].
  change (includes (String c t ++ ":") "::")
    with (String.prefix "::" (String c (t ++ ":")) || includes (t ++ ":") "::").
  rewrite prefix_colons.
  destruct (ascii_dec ":" c) as [E|_]; [contradiction|]. now apply IH.
Qed.

Lemma no_meet_no_colons (t : string) : no_colons_meet t -> includes t "::" = false.
Proof.
  unfold no_colons_meet. intros H.
  destruct (includes t "::") eqn:E; [|reflexivity].
  now rewrite (includes_app_l t ":" "::" E) in H.
Qed.

Lemma no_meet_pseudoClass (t v : string) :
  no_colons_meet t -> free_of ":" v -> v <> "" -> no_colons_meet (t ++ ":" ++ v).
Proof.
  unfold no_colons_meet. intros Ht Hv Hne.
  destruct v as [|c v]; [congruence|].
  apply free_head in Hv as [N Hv].
  replace ((t ++ ":" ++ String c v) ++ ":") with ((t ++ ":") ++ String c (v ++ ":")).
  - rewrite colons_across by congruence. rewrite Ht.
    exact (free_colon_no_meet v Hv).
  - rewrite !JsonFacts.append_assoc. reflexivity.
Qed.

(** The text after a part is fit for every part of a later kind. *)
Lemma text_after_weaken (q : part) (t : string) :
  text_after q t ->
  (rank q <= 2 -> free_of "[" t) /\
  (rank q <= 3 -> free_of ":" t) /\
  (rank q <= 4 -> no_colons_meet t).
Proof.
  destruct q; cbn [text_after rank]; intros H; repeat split; intros; try lia;
    try tauto; apply free_colon_no_meet; tauto.
Qed.

Lemma start_text (p : part) (v : string) :
  admissible p v -> text_after p (token p v).
Proof.
  destruct p; cbn [admissible text_after token]; intros H.
  - exact H.
  - destruct H; split; now apply free_app.
  - destruct H; split; now apply free_app.
  - apply (free_app ":" "["); [reflexivity|]. now apply free_app.
  - destruct H as [Hv Hne]. now apply (no_meet_pseudoClass "").
  - exact I.
Qed.

Lemma append_text (q p : part) (g : CssClass.t) (v : string) :
  may_follow q p = true -> text_after q (value g) -> admissible p v ->
  exists f, append p g v = Normal f /\ text_after p (value f).
Proof.
  intros M Hq Hv.
  destruct (text_after_weaken q _ Hq) as (B & C & D).
  destruct p; cbn [append admissible text_after] in *.
  - destruct q; discriminate M.
  - destruct q; try discriminate M. cbn [text_after] in Hq.
    destruct Hq as (H1 & H2 & H3 & H4), Hv as (V1 & V2).
    unfold free_of in H1, H2, H3, H4. unfold CssClass.id.
    rewrite H1, H2, H3, H4. cbn [orb].
    rewrite (no_meet_no_colons _ (free_colon_no_meet _ H4)).
    eexists; split; [reflexivity|]. cbn [value].
    split; apply free_app; auto; now apply free_app.
  - assert (R : rank q <= 2) by (destruct q; cbn in *; try discriminate M; lia).
    pose proof (B R) as H3. pose proof (C ltac:(lia)) as H4. destruct Hv as (V1 & V2).
    unfold CssClass.class. unfold free_of in H3, H4. rewrite H3, H4. cbn [orb].
    rewrite (no_meet_no_colons _ (free_colon_no_meet _ H4)).
    eexists; split; [reflexivity|]. cbn [value].
    split; apply free_app; auto; now apply free_app.
  - assert (R : rank q <= 3) by (destruct q; cbn in *; try discriminate M; lia).
    pose proof (C R) as H4. unfold CssClass.attr. unfold free_of in H4.
    rewrite H4. cbn [orb].
    rewrite (no_meet_no_colons _ (free_colon_no_meet _ H4)).
    eexists; split; [reflexivity|]. cbn [value].
    apply free_app; auto. apply (free_app ":" "["); [reflexivity|].
    now apply free_app.
  - assert (R : rank q <= 4) by (destruct q; cbn in *; try discriminate M; lia).
    pose proof (D R) as H5. destruct Hv as (V1 & V2).
    unfold CssClass.pseudoClass. rewrite (no_meet_no_colons _ H5).
    eexists; split; [reflexivity|]. cbn [value].
    now apply no_meet_pseudoClass.
  - assert (R : rank q <= 4) by (destruct q; cbn in *; try discriminate M; lia).
    pose proof (D R) as H5.
    unfold CssClass.pseudoElement. rewrite (no_meet_no_colons _ H5).
    eexists; split; [reflexivity | exact I].
Qed.

Lemma well_formed_runs (s : Script.t) :
  well_formed s = true -> admissible_script s ->
  exists f, run s = Normal f /\
            forall q, last_kind s = Some q -> text_after q (value f).
Proof.
  induction s as [p v | s IH p v | s1 IH1 op s2 IH2];
    cbn [well_formed admissible_script run last_kind]; intros W A.
  - eexists; split; [reflexivity|]. intros q [= <-].
    rewrite start_value. now apply start_text.
  - apply andb_true_iff in W as [W M]. destruct A as [A Av].
    destruct (last_kind s) as [q|] eqn:L; [|discriminate].
    destruct (IH W A) as (g & -> & Hg). cbn [cbind].
    destruct (append_text q p g v M (Hg q eq_refl) Av) as (f & Hf & Ht).
    exists f. split; [exact Hf|]. now intros q' [= <-].
  - apply andb_true_iff in W as [W1 W2]. destruct A as [A1 A2].
    destruct (IH1 W1 A1) as (g1 & -> & _), (IH2 W2 A2) as (g2 & -> & _).
    eexists; split; [reflexivity | discriminate].
Qed.

(** X6: a chain whose kinds follow the prescribed order, or [combine] of
    such chains, is accepted when its arguments are admissible, and renders
    as the text of its tokens. *)
Theorem well_formed_accepted (s : Script.t)
    (Hwf : well_formed s = true) (Hadm : admissible_script s) :
  exists f, run s = Normal f /\ stringify f = render s.
Proof.
  destruct (well_formed_runs s Hwf Hadm) as (f & Hf & _).
  exists f. split; [exact Hf | exact (run_value_render s f Hf)].
Qed.

Lemma well_formed_accepted_witness :
  exists f, run Order.documented_example = Normal f /\
            stringify f =
              "div#main.container.draggable + table#data ~ tr:nth-of-type(even)   td:nth-of-type(even)".
Proof.
  refine (well_formed_accepted Order.documented_example eq_refl _).
  cbn; repeat split; discriminate.
Defined.

(** X7: after [pseudoClass] with the empty name and one more
    [pseudoClass], the text has two colons in a row: every further
    [pseudoClass] throws the ordering error and [pseudoElement] the
    duplicate error. *)
Theorem empty_pseudoClass_blocks (g g1 g2 : CssClass.t) (v w : string)
    (H1 : CssClass.pseudoClass g "" = Normal g1)
    (H2 : CssClass.pseudoClass g1 v = Normal g2) :
  stringify g2 = stringify g ++ "::" ++ v /\
  CssClass.pseudoClass g2 w = Throw SegmentOrderError /\
  CssClass.pseudoElement g2 w = Throw DuplicateSegmentError.
Proof.
  apply (append_Normal PseudoClass) in H1 as [E1 _].
  apply (append_Normal PseudoClass) in H2 as [E2 _].
  cbn [token] in E1, E2.
  assert (E : value g2 = value g ++ "::" ++ v).
  { rewrite E2, E1, JsonFacts.append_assoc. reflexivity. }
  assert (K : includes (value g2) "::" = true).
  { apply includes_spec. now exists (value g), v. }
  split; [exact E|].
  unfold CssClass.pseudoClass, CssClass.pseudoElement. now rewrite K.
Qed.

Lemma empty_pseudoClass_blocks_witness :
  CssClass.pseudoClass (CssClass.new "a::hover" true) "focus" = Throw SegmentOrderError.
Proof.
  exact (proj1 (proj2 (empty_pseudoClass_blocks
    (CssClass.new "a" true) (CssClass.new "a:" true) (CssClass.new "a::hover" true)
    "hover" "focus" eq_refl eq_refl))).
Defined.

(** X12: an attribute whose text has a colon, as in a URL, is taken for a
    pseudo-class by the calls that follow: after it [attr] and [class]
    throw the ordering error, whatever their argument. *)
Theorem attr_with_colon_blocks (g g' : CssClass.t) (v w : string)
    (Hattr : CssClass.attr g v = Normal g') (Hcolon : includes v ":" = true) :
  stringify g' = stringify g ++ "[" ++ v ++ "]" /\
  CssClass.attr g' w = Throw SegmentOrderError /\
  CssClass.class g' w = Throw SegmentOrderError.
Proof.
  apply (append_Normal Attr) in Hattr as [E _]. cbn [token] in E.
  assert (K : includes (value g') ":" = true).
  { rewrite E. apply includes_app_r, (includes_app_r "["), includes_app_l, Hcolon. }
  split; [exact E|].
  unfold CssClass.attr, CssClass.class. rewrite K.
  split; [reflexivity | now rewrite orb_true_r].
Qed.

Lemma attr_with_colon_blocks_witness :
  CssClass.attr (CssClass.new "a[href^=http://]" true) "target" = Throw SegmentOrderError.
Proof.
  exact (proj1 (proj2 (attr_with_colon_blocks
    (CssClass.new "a" true) (CssClass.new "a[href^=http://]" true)
    "href^=http://" "target" eq_refl eq_refl))).
Defined.

End OrderFacts.

(** ** Scripts over the store *)

Module StoreScriptFacts.
Import Store StoreFacts.

Lemma start_agrees (p : Script.part) (v : string) (h : store) :
  StoreScript.start p v h = (Normal (List.length h), (h ++ [Script.start p v])%list).
Proof. now destruct p. Qed.

(** X8: a script evaluated in the store only adds objects after those
    that were there; it returns the location of an object with the fields
    that the script has as a value, or throws what the script throws as a
    value, the fragments made before the failing call still in the
    store. *)
Theorem run_agrees (s : Script.t) (h : store) :
  exists h', snd (StoreScript.run s h) = (h ++ h')%list /\
    match Script.run s with
    | Normal f =>
        exists l, fst (StoreScript.run s h) = Normal l /\
                  nth_error (h ++ h')%list l = Some f
    | Throw e => fst (StoreScript.run s h) = Throw e
    end.
Proof.
  revert h.
  induction s as [p v | s IH p v | s1 IH1 op s2 IH2]; intros h;
    cbn [StoreScript.run Script.run].
  - rewrite start_agrees. exists [Script.start p v]. split; [reflexivity|].
    exists (List.length h). split; [reflexivity|].
    now rewrite nth_error_app2, Nat.sub_diag.
  - unfold bind. destruct (IH h) as (h1 & Hs & Hr). clear IH.
    destruct (StoreScript.run s h) as [r st]. cbn [fst snd] in *. subst st.
    destruct (Script.run s) as [g|e]; cbn [cbind].
    + destruct Hr as (l & -> & Hl). rewrite method_agrees, Hl.
      destruct (Script.append p g v) as [f|e].
      * exists (h1 ++ [f])%list. cbn [fst snd].
        split; [now rewrite app_assoc|].
        exists (List.length (h ++ h1)%list). split; [reflexivity|].
        now rewrite app_assoc, nth_error_app2, Nat.sub_diag.
      * exists h1. now split.
    + rewrite Hr. exists h1. now split.
  - unfold bind. destruct (IH1 h) as (h1 & Hs1 & Hr1). clear IH1.
    destruct (StoreScript.run s1 h) as [r1 st1]. cbn [fst snd] in *. subst st1.
    destruct (Script.run s1) as [g1|e]; cbn [cbind].
    + destruct Hr1 as (l1 & -> & Hl1).
      destruct (IH2 (h ++ h1)%list) as (h2 & Hs2 & Hr2). clear IH2.
      destruct (StoreScript.run s2 (h ++ h1)%list) as [r2 st2].
      cbn [fst snd] in *. subst st2.
      destruct (Script.run s2) as [g2|e]; cbn [cbind].
      * destruct Hr2 as (l2 & -> & Hl2). rewrite combine_agrees, Hl2.
        rewrite (nth_error_app1 (h ++ h1)%list h2)
          by (apply nth_error_Some; congruence).
        rewrite Hl1.
        exists (h1 ++ h2 ++ [cssSelectorBuilder.combine g1 op g2])%list. cbn [fst snd].
        split; [now rewrite !app_assoc|].
        exists (List.length ((h ++ h1) ++ h2)%list). split; [reflexivity|].
        rewrite !app_assoc. now rewrite nth_error_app2, Nat.sub_diag.
      * rewrite Hr2. exists (h1 ++ h2)%list. cbn [fst snd].
        split; [now rewrite app_assoc | reflexivity].
    + rewrite Hr1. exists h1. now split.
Qed.

End StoreScriptFacts.

(** ** getJSON and fromJSON, further *)

Module JsonMoreFacts.
Import Json JsonFacts.

Section Host.
Context {number : Type}.
Variable isFinite : number -> bool.
Variable Number_toString : number -> string.
Variable StringToNumber : string -> number.

Local Abbreviation value := (Json.value number).
Local Abbreviation plain := (Json.plain isFinite Number_toString StringToNumber).
Local Abbreviation plain_attributes :=
  (Json.plain_attributes isFinite Number_toString StringToNumber).
Local Abbreviation getJSON := (Json.getJSON isFinite Number_toString).
Local Abbreviation fromJSON := (Json.fromJSON StringToNumber).
Local Abbreviation JSON_parse := (Json.JSON_parse StringToNumber).

Lemma plain_attributes_with_prototype (proto : prototype) (v : value) :
  toJSON_of proto = None -> plain_attributes v ->
  plain_attributes (with_prototype proto v).
Proof.
  intros Hp [Pv Hv]. split.
  - now destruct v.
  - destruct v; cbn [with_prototype toJSON_result] in *; try reflexivity.
    + exact Hp.
    + rewrite Hp. now destruct (has_own_property "toJSON" props).
Qed.

(** X9: two values of plain data with the same text from [getJSON] are
    the same value. *)
Theorem getJSON_injective (v1 v2 : value)
    (H1 : plain v1) (H2 : plain v2) (Htext : getJSON v1 = getJSON v2) :
  v1 = v2.
Proof.
  pose proof (JSON_parse_stringify isFinite Number_toString StringToNumber v1 H1) as P1.
  pose proof (JSON_parse_stringify isFinite Number_toString StringToNumber v2 H2) as P2.
  unfold Json.getJSON in Htext. rewrite Htext in P1. congruence.
Qed.

(** X10: for a value but null whose attributes are plain data and for
    which no toJSON method is found, and a prototype without a toJSON
    method, the text that [getJSON] gives for the result of [fromJSON] is the
    text from which it was read. *)
Theorem getJSON_fromJSON_getJSON (v : value) (proto : prototype)
    (Hplain : plain_attributes v) (Hnot_null : v <> Null)
    (Hproto : toJSON_of proto = None) :
  exists r, fromJSON proto (getJSON v) = Some (Normal r) /\
            getJSON r = getJSON v.
Proof.
  exists (with_prototype proto v). split.
  - unfold Json.fromJSON, Json.getJSON, JSON_stringify.
    rewrite (ser_plain_attributes _ _ _ v Hplain),
            (JSON_parse_text _ _ _ _ (proj1 Hplain)).
    destruct v; try reflexivity. congruence.
  - unfold Json.getJSON, JSON_stringify.
    rewrite (ser_plain_attributes _ _ _ v Hplain).
    rewrite (ser_plain_attributes _ _ _ _
               (plain_attributes_with_prototype proto v Hproto Hplain)).
    now destruct v.
Qed.


End Host.

Lemma getJSON_injective_witness :
  Array Array_prototype [Number 1%Z; Str "a"; Null]
  = Array Array_prototype [Number 1%Z; Str "a"; Null].
Proof.
  refine (getJSON_injective IntegerHost.isFinite IntegerHost.Number_toString
            IntegerHost.StringToNumber
            (Array Array_prototype [Number 1%Z; Str "a"; Null])
            (Array Array_prototype [Number 1%Z; Str "a"; Null]) _ _ eq_refl);
    cbn; repeat split.
Defined.

Lemma getJSON_fromJSON_getJSON_witness :
  exists r,
    IntegerHost.fromJSON (Prototype "Circle" None)
      (IntegerHost.getJSON (Object Object_prototype [("radius", Number 10%Z)]))
      = Some (Normal r) /\
    IntegerHost.getJSON r
      = IntegerHost.getJSON (Object Object_prototype [("radius", Number 10%Z)]).
Proof.
  refine (getJSON_fromJSON_getJSON IntegerHost.isFinite IntegerHost.Number_toString
            IntegerHost.StringToNumber
            (Object Object_prototype [("radius", Number 10%Z)])
            (Prototype "Circle" None) _ _ eq_refl).
  - repeat split.
  - discriminate.
Defined.


End JsonMoreFacts.
